(** * Roof-material classification notebook: a shallow embedding

    The development follows [examples/04-Roof-Classification-Model.ipynb]
    cell by cell.  Python values become Rocq data, dictionaries become
    [gmap]s, a GeoDataFrame becomes a list of rows, and the effects of a
    cell (exceptions, the file system, what is printed or plotted, which
    collaborators are called) are threaded explicitly through a small
    state-and-exception monad.  What the collaborators outside the
    notebook do (geopandas, rasterio, the operating system, the inference
    script) is gathered in the class [Externals]: every theorem holds for
    each behaviour they may have. *)

From Stdlib Require Import ZArith QArith Lia Lqa Ascii String.
From stdpp Require Import base option list gmap strings.

Local Open Scope string_scope.
Local Open Scope list_scope.

(** ** Python values *)

(** A float is NaN, an infinity or a finite value; finite floats are
    dyadic rationals and compare by value. *)
Inductive pyfloat :=
| FNan
| FNegInf
| FFin (q : Q)
| FPosInf.

(** The values the notebook handles; [VNum] is a finite float, [VList] a
    list of floats, [VMatrix] an array of integers, [VLabels] a dictionary
    from labels to class names. *)
Inductive pyval :=
| VNone
| VNum (q : Q)
| VInt (n : Z)
| VStr (s : string)
| VList (l : list pyfloat)
| VMatrix (m : list (list Z))
| VLabels (d : list (Z * string))
| VDevice (s : string).

(** [SimpleNamespace(k1=v1, ...)]: attribute names with their values, in
    the order they are written. *)
Definition namespace := list (string * pyval).

(** [KeyError k] is what a subscript raises; whatever matplotlib raises,
    of whichever class, is a [PyplotError] with the name of that class. *)
Inductive exn :=
| KeyError (k : string)
| ValueError
| TypeError
| AttributeError
| OverflowError
| FileNotFoundError (p : string)
| PyplotError (cls : string)
| OtherError (tag : string).

Inductive result (A : Type) :=
| Ok (a : A)
| Raise (e : exn).
Arguments Ok {A} a.
Arguments Raise {A} e.

(** ** Built-ins used by the notebook *)

Definition Qltb (x y : Q) : bool := negb (Qle_bool y x).

(** [x < y], [x == y] and [x <= y] on floats: false as soon as one side
    is NaN. *)
Definition flt (x y : pyfloat) : bool :=
  match x with
  | FNan => false
  | FNegInf => match y with FFin _ | FPosInf => true | _ => false end
  | FFin a => match y with FFin b => Qltb a b | FPosInf => true | _ => false end
  | FPosInf => false
  end.

Definition feq (x y : pyfloat) : bool :=
  match x, y with
  | FNegInf, FNegInf => true
  | FFin a, FFin b => Qeq_bool a b
  | FPosInf, FPosInf => true
  | _, _ => false
  end.

Definition fle (x y : pyfloat) : bool := flt x y || feq x y.

(** An item of a list as an object: the position it is stored at and its
    value.  Items at different positions are different objects. *)
Definition item := (nat * pyfloat)%type.

(** [min(l)]: keeps the first item and replaces it by a later one only if
    that one is strictly smaller; returns the item itself; [ValueError] on
    an empty sequence.  [i] is the position of the head of [rest]. *)
Fixpoint min_from (best : item) (i : nat) (rest : list pyfloat) : item :=
  match rest with
  | [] => best
  | x :: rest' =>
      min_from (if flt x (snd best) then (i, x) else best) (S i) rest'
  end.

Definition py_min (l : list pyfloat) : result item :=
  match l with
  | [] => Raise ValueError
  | x :: rest => Ok (min_from (0%nat, x) 1 rest)
  end.

(** [l.index(x)]: the first position whose item is [x] itself or is equal
    to it; [ValueError] when there is none.  [j] is the position of the
    head of [l]. *)
Fixpoint index_from (j : nat) (l : list pyfloat) (x : item) : result nat :=
  match l with
  | [] => Raise ValueError
  | y :: l' =>
      if (j =? fst x)%nat || feq y (snd x) then Ok j
      else index_from (S j) l' x
  end.

Definition py_index (l : list pyfloat) (x : item) : result nat :=
  index_from 0 l x.

(** [val_losses.index(min(val_losses))] *)
Definition best_epoch (val_losses : list pyfloat) : result nat :=
  match py_min val_losses with
  | Ok m => py_index val_losses m
  | Raise e => Raise e
  end.

(** The characters of a string as the sequence Python iterates over,
    each by its code. *)
Definition codes (s : string) : list pyfloat :=
  map (fun c => FFin (inject_Z (Z.of_nat (nat_of_ascii c))))
      (list_ascii_of_string s).

(** ** [pathlib.Path]: final component and parent of a path *)

(** [path_split s] is [(Some dir, name)] when [s] contains a slash and
    [(None, s)] otherwise. *)
Fixpoint path_split (s : string) : option string * string :=
  match s with
  | EmptyString => (None, EmptyString)
  | String c s' =>
      match path_split s' with
      | (Some d, n) => (Some (String c d), n)
      | (None, n) =>
          if Ascii.eqb c "/"%char then (Some EmptyString, n)
          else (None, String c n)
      end
  end.

Definition path_name (s : string) : string := snd (path_split s).

Definition path_parent (s : string) : string :=
  match fst (path_split s) with
  | Some EmptyString => "/"
  | Some d => d
  | None => "."
  end.

(** ** GeoDataFrames and rasters *)

Inductive geom :=
| Point (x y : Q)
| Polygon (ring : list (Q * Q)).

(** A row has its index label, its attribute cells and its geometry.  A
    cell that is absent from [attrs], or holds [None], is null. *)
Record row := {
  rid : Z;
  attrs : gmap string pyval;
  geometry : geom
}.

Record frame := {
  crs : option Z;
  columns : list string;
  rows : list row
}.

Record raster := {
  raster_crs : option Z;
  bounds : Q * Q * Q * Q
}.

Definition series := list (option pyval).

(** [df[c]] *)
Definition getcol (df : frame) (c : string) : result series :=
  if decide (c ∈ columns df)
  then Ok (map (fun r => attrs r !! c) (rows df))
  else Raise (KeyError c).

Definition is_null (v : option pyval) : bool :=
  match v with
  | None | Some VNone => true
  | Some _ => false
  end.

(** [s.isna()], [~m] and [m1 & m2] on series of one frame *)
Definition isna (s : series) : list bool := map is_null s.
Definition series_not (m : list bool) : list bool := map negb m.
Fixpoint series_and (m1 m2 : list bool) : list bool :=
  match m1, m2 with
  | b1 :: m1', b2 :: m2' => (b1 && b2) :: series_and m1' m2'
  | _, _ => []
  end.

(** [df[mask]]: the rows at which the mask is true, in order. *)
Fixpoint mask_rows (rs : list row) (m : list bool) : list row :=
  match rs, m with
  | r :: rs', b :: m' => if b then r :: mask_rows rs' m' else mask_rows rs' m'
  | _, _ => []
  end.

Definition with_rows (df : frame) (rs : list row) : frame :=
  {| crs := crs df; columns := columns df; rows := rs |}.

(** [annotations[~annotations["building"].isna()
                 & annotations["roof:material"].isna()].copy()] *)
Definition select_unlabeled (annotations : frame) : result frame :=
  match getcol annotations "building" with
  | Raise e => Raise e
  | Ok b =>
      let has_building := series_not (isna b) in
      match getcol annotations "roof:material" with
      | Raise e => Raise e
      | Ok m =>
          let mask := series_and has_building (isna m) in
          Ok (with_rows annotations (mask_rows (rows annotations) mask))
      end
  end.

Definition unlabeled (r : row) : bool :=
  negb (is_null (attrs r !! "building")) && is_null (attrs r !! "roof:material").

(** ** The world a cell runs in *)

Inductive file :=
| FEmpty
| FVector (driver : string) (df : frame)
| FBlob (tag : string).

(** What a cell does that can be observed from outside. *)
Inductive event :=
| EGetItem (k : string)
| EPlt (fn : string) (args : list pyval)
| EPrint (template : string) (args : list pyval)
| EToFile (df : frame) (path driver : string)
| EMkdir (path : string)
| EInference (checkpoint image buildings out : string) (args : namespace)
             (handed : option file)
| EUnlink (path : string).

Record world := {
  fs : gmap string file;
  trace : list event
}.

Definition log (e : event) (w : world) : world :=
  {| fs := fs w; trace := trace w ++ [e] |}.

Definition set_fs (f : gmap string file) (w : world) : world :=
  {| fs := f; trace := trace w |}.

(** State threaded through, also when an exception is raised. *)
Definition M (A : Type) : Type := world -> result A * world.

Definition ret {A} (a : A) : M A := fun w => (Ok a, w).
Definition bind {A B} (c : M A) (k : A -> M B) : M B :=
  fun w =>
    match c w with
    | (Ok a, w') => k a w'
    | (Raise e, w') => (Raise e, w')
    end.
Definition lift {A} (r : result A) : M A := fun w => (r, w).
Definition emit (e : event) : M unit := fun w => (Ok tt, log e w).

Notation "x <- c1 ;; c2" := (bind c1 (fun x => c2))
  (at level 100, c1 at next level, right associativity).
Notation "c1 ;; c2" := (bind c1 (fun _ => c2))
  (at level 100, right associativity).

(** [try: body finally: cleanup]: the cleanup runs in every case, and an
    exception it raises replaces the outcome of the body. *)
Definition try_finally {A} (body : M A) (cleanup : M unit) : M A :=
  fun w =>
    match body w with
    | (r, w1) =>
        match cleanup w1 with
        | (Ok _, w2) => (r, w2)
        | (Raise e, w2) => (Raise e, w2)
        end
    end.

(** [Path(p).unlink()] *)
Definition unlink (p : string) : M unit :=
  fun w =>
    match fs w !! p with
    | Some _ => (Ok tt, log (EUnlink p) (set_fs (delete p (fs w)) w))
    | None => (Raise (FileNotFoundError p), log (EUnlink p) w)
    end.

(** ** Cells 3 and 4: the metrics dictionary *)

(** [metrics[k]] *)
Definition getitem (metrics : gmap string pyval) (k : string) : M pyval :=
  fun w =>
    match metrics !! k with
    | Some v => (Ok v, log (EGetItem k) w)
    | None => (Raise (KeyError k), log (EGetItem k) w)
    end.

(** Which calls matplotlib accepts is not fixed by the notebook: a call
    may raise, depending on its arguments and on what went before. *)
Class Pyplot := {
  plt_fault : world -> string -> list pyval -> option string
}.

(** [plt.fn(args)]: the call is made, and returns or raises. *)
Definition plt `{Pyplot} (fn : string) (args : list pyval) : M unit :=
  fun w =>
    match plt_fault w fn args with
    | Some cls => (Raise (PyplotError cls), log (EPlt fn args) w)
    | None => (Ok tt, log (EPlt fn args) w)
    end.

Definition print (template : string) (args : list pyval) : M unit :=
  emit (EPrint template args).

(** The items of a value that has an [index] method: a list or a string. *)
Definition as_sequence (v : pyval) : option (list pyfloat) :=
  match v with
  | VList l => Some l
  | VStr s => Some (codes s)
  | _ => None
  end.

(** [v.index]: lists and strings have the method; numbers, [None],
    dictionaries and arrays do not. *)
Definition index_method (v : pyval) : result (item -> result nat) :=
  match as_sequence v with
  | Some l => Ok (py_index l)
  | None => Raise AttributeError
  end.

(** [min(v)], for the values the cell can reach it with: a value without
    an [index] method has stopped the cell one step before. *)
Definition min_of (v : pyval) : result item :=
  match as_sequence v with
  | Some l => py_min l
  | None => Raise TypeError
  end.

(** The integers [{:.2f}] can format are those that convert to a float. *)
Definition float_int_limit : Z := 2 ^ 1024 - 2 ^ 970.

(** [v * 100] followed by the [{:.2f}] format *)
Definition percent (v : pyval) : result pyval :=
  match v with
  | VNum q => Ok (VNum (q * 100))
  | VInt n =>
      if (Z.abs (n * 100) <? float_int_limit)%Z
      then Ok (VNum (inject_Z (n * 100)))
      else Raise OverflowError
  | VStr _ => Raise ValueError
  | _ => Raise TypeError
  end.

Definition cell3_plot `{Pyplot} (metrics : gmap string pyval) : M unit :=
  plt "figure" [VInt 5; VInt 3] ;;
  train <- getitem metrics "train_losses" ;;
  plt "plot" [train; VStr "train"] ;;
  val <- getitem metrics "val_losses" ;;
  plt "plot" [val; VStr "val"] ;;
  receiver <- getitem metrics "val_losses" ;;
  index <- lift (index_method receiver) ;;
  val' <- getitem metrics "val_losses" ;;
  lowest <- lift (min_of val') ;;
  best_epoch <- lift (index lowest) ;;
  test_loss <- getitem metrics "test_loss" ;;
  plt "scatter" [VInt (Z.of_nat best_epoch); test_loss; VStr "test";
                 VStr "green"; VStr "x"] ;;
  plt "legend" [] ;;
  plt "xlabel" [VStr "Epoch"] ;;
  plt "ylabel" [VStr "Loss"] ;;
  plt "title" [VStr "Roof Material Classification Loss"] ;;
  plt "tight_layout" [] ;;
  plt "show" [].

Definition cell4_print (metrics : gmap string pyval) : M unit :=
  labels <- getitem metrics "label_to_class" ;;
  print "{}" [labels] ;;
  accuracy <- getitem metrics "test_accuracy" ;;
  shown <- lift (percent accuracy) ;;
  print "Test accuracy: {:.2f}%" [shown] ;;
  print "Test confusion matrix:" [] ;;
  matrix <- getitem metrics "test_confusion_matrix" ;;
  print "{}" [matrix].

Definition metrics_keys : list string :=
  ["train_losses"; "val_losses"; "test_loss"; "test_accuracy";
   "test_confusion_matrix"; "label_to_class"].

(** The keys subscripted in a trace, in order. *)
Definition getitems (t : list event) : list string :=
  omap (fun e => match e with EGetItem k => Some k | _ => None end) t.

(** ** Collaborators outside the notebook *)

(** What geopandas, rasterio, the operating system and the inference
    script do is not fixed by the notebook: each may return or raise.  A
    save that fails and the inference script may leave any files behind;
    [mkdir] creates directories only, and the file system of the model
    holds regular files. *)
Class Externals := {
  pickle_load_behaviour : string -> gmap string file -> result (gmap string pyval);
  read_file_behaviour : string -> gmap string file -> result frame;
  reproject : Z -> Z -> geom -> geom;
  open_behaviour : string -> gmap string file -> result raster;
  geom_within : geom -> Q * Q * Q * Q -> bool;
  tempfile_name : string -> gmap string file -> string;
  to_file_fault :
    frame -> string -> string -> gmap string file -> option (exn * gmap string file);
  mkdir_fault : string -> gmap string file -> option exn;
  inference_behaviour :
    string -> string -> string -> string -> namespace -> gmap string file ->
    result unit * gmap string file
}.

(** Modelled from the spec: [src/geo_utils.py], which defines
    [filter_points_to_raster], is not among the sources.  The spec says
    that it restricts a set of point or polygon annotations to those
    falling within a raster's spatial extent; which geometries fall within
    an extent is left to the geometric predicate [geom_within]. *)
Definition filter_points_to_raster `{Externals} (points : frame) (src : raster) : frame :=
  with_rows points
    (List.filter (fun r => geom_within (geometry r) (bounds src)) (rows points)).

Section Cells.
Context `{Externals}.

Definition pickle_load (path : string) : M (gmap string pyval) :=
  fun w => (pickle_load_behaviour path (fs w), w).

Definition gpd_read_file (path : string) : M frame :=
  fun w => (read_file_behaviour path (fs w), w).

(** [df.to_crs(epsg)]: a frame without a CRS cannot be transformed. *)
Definition to_crs (epsg : Z) (df : frame) : result frame :=
  match crs df with
  | None => Raise ValueError
  | Some from =>
      Ok {| crs := Some epsg;
            columns := columns df;
            rows := map (fun r => {| rid := rid r; attrs := attrs r;
                                     geometry := reproject from epsg (geometry r) |})
                        (rows df) |}
  end.

Definition rasterio_open (path : string) : M raster :=
  fun w => (open_behaviour path (fs w), w).

(** [tempfile.NamedTemporaryFile(suffix=..., delete=False)]: the file
    exists, empty, once the call returns; its name is returned. *)
Definition NamedTemporaryFile (suffix : string) : M string :=
  fun w =>
    let name := tempfile_name suffix (fs w) in
    (Ok name, set_fs (<[name := FEmpty]> (fs w)) w).

(** [df.to_file(path, driver=...)] *)
Definition to_file (df : frame) (path driver : string) : M unit :=
  fun w =>
    let w1 := log (EToFile df path driver) w in
    match to_file_fault df path driver (fs w) with
    | Some (e, f') => (Raise e, set_fs f' w1)
    | None => (Ok tt, set_fs (<[path := FVector driver df]> (fs w)) w1)
    end.

(** [Path(...).mkdir(parents=True, exist_ok=True)] *)
Definition mkdir (path : string) : M unit :=
  fun w =>
    let w1 := log (EMkdir path) w in
    match mkdir_fault path (fs w) with
    | Some e => (Raise e, w1)
    | None => (Ok tt, w1)
    end.

(** The call of the inference script's function; the event keeps what
    is stored under the building path when the call is made. *)
Definition roof_material_inference
    (checkpoint image buildings out : string) (args : namespace) : M unit :=
  fun w =>
    let w1 := log (EInference checkpoint image buildings out args
                              (fs w !! buildings)) w in
    match inference_behaviour checkpoint image buildings out args (fs w) with
    | (r, f') => (r, set_fs f' w1)
    end.

(** *** Cell 5 *)

Definition annotations_f : string :=
  "../data/interim/example_annotations/polygons-Kakuma_15.gpkg".
Definition imagery_f : string :=
  "../data/interim/example_mosaic_cogs/kakuma_15.tif".
Definition checkpoint_f : string :=
  "../outputs/roof_material_classification/example-2024-01-19-01-44-00/checkpoints/epoch=4_val_loss=0.2140.ckpt".
Definition out_f : string :=
  "../outputs/roof_material_classification/example-2024-01-19-01-44-00/inference/epoch=4_val_loss=0.2140/kakuma_15-annotations-predictions.gpkg".

(** [SimpleNamespace(batch_size=64, num_workers=12,
                     device=torch.device("cuda:0"))] *)
Definition args : namespace :=
  [("batch_size", VInt 64); ("num_workers", VInt 12); ("device", VDevice "cuda:0")].

(** The [try] block. *)
Definition save_and_infer (annotations : frame) (temp : string) : M unit :=
  to_file annotations temp "GeoJSON" ;;
  mkdir (path_parent out_f) ;;
  roof_material_inference checkpoint_f imagery_f temp out_f args.

(** From the [print] to the end of the cell. *)
Definition cell5_tail (annotations filtered_annotations : frame) : M unit :=
  print "Unlabeled roofs in imagery file {}: {}"
        [VStr (path_name imagery_f);
         VInt (Z.of_nat (length (rows filtered_annotations)))] ;;
  temp <- NamedTemporaryFile ".gpkg" ;;
  try_finally (save_and_infer annotations temp) (unlink temp).

Definition load_annotations : M frame :=
  raw <- gpd_read_file annotations_f ;;
  lift (to_crs 32636 raw).

Definition cell5 : M unit :=
  annotations <- load_annotations ;;
  annotations <- lift (select_unlabeled annotations) ;;
  src <- rasterio_open imagery_f ;;
  let filtered_annotations := filter_points_to_raster annotations src in
  cell5_tail annotations filtered_annotations.

Definition cell3 `{Pyplot} : M unit :=
  metrics <- pickle_load
    "../outputs/roof_material_classification/example-2024-01-19-01-44-00/metrics.pkl" ;;
  cell3_plot metrics.
End Cells.

(** ** What a trace says about the inference call *)

(** The positional arguments and the namespace of each inference call. *)
Definition inference_calls (t : list event)
  : list (string * string * string * string * namespace) :=
  omap (fun e => match e with
                 | EInference c i b o a _ => Some (c, i, b, o, a)
                 | _ => None
                 end) t.

(** The number of values an inference call is given: one for each
    positional string and one for each attribute of the namespace. *)
Definition parameter_count (c : string * string * string * string * namespace) : nat :=
  match c with
  | (_, _, _, _, a) => 4 + length a
  end.

(** The parameters the overview of the notebook lists for that call. *)
Definition listed_parameters : list string :=
  ["checkpoint path"; "image directory"; "building-detection directory";
   "batch size"; "worker count"; "device"].

Definition ends_with (suffix s : string) : bool :=
  let n := String.length suffix in
  let m := String.length s in
  (n <=? m)%nat && String.eqb (String.substring (m - n) n s) suffix.

(** ** The command lines shown in the markdown cells *)

Definition train_command : string :=
  "python train.py --exp-version example --data-dir ../../data/processed/example_chipped_datasets/roof_material_classification/ --tile-split-file ../../config/examples/data_preprocessing/tiled_dataset_splits/tiled_dataset_splits_1.yml --output-dir ../../outputs/".

Definition inference_command : string :=
  "python inference.py --checkpoint-path ../../outputs/roof_material_classification/example-2024-01-19-01-44-00/checkpoints/epoch\=4_val_loss\=0.2140.ckpt --image-dir ../../data/interim/example_mosaic_cogs/ --building-detections-dir ../../outputs/semantic_segmentation/example-2024-01-19-01-06-30/inference/".

(** The flags of a command line: its words that start with two dashes. *)
Definition flags (command : string) : list string :=
  List.filter (fun w => String.prefix "--" w) (String.words command).

(** ** The events of complete runs *)

(** What the plotting cell does when it runs to its end, [i] being the
    best epoch. *)
Definition cell3_events (train val : pyval) (test_loss : pyval) (i : nat)
  : list event :=
  [EPlt "figure" [VInt 5; VInt 3];
   EGetItem "train_losses"; EPlt "plot" [train; VStr "train"];
   EGetItem "val_losses"; EPlt "plot" [val; VStr "val"];
   EGetItem "val_losses"; EGetItem "val_losses"; EGetItem "test_loss";
   EPlt "scatter" [VInt (Z.of_nat i); test_loss; VStr "test"; VStr "green"; VStr "x"];
   EPlt "legend" []; EPlt "xlabel" [VStr "Epoch"]; EPlt "ylabel" [VStr "Loss"];
   EPlt "title" [VStr "Roof Material Classification Loss"];
   EPlt "tight_layout" []; EPlt "show" []].

(** The value of a key in the events of a complete run; [None] stands in
    for a key the dictionary does not have. *)
Definition value_or_none (metrics : gmap string pyval) (k : string) : pyval :=
  match metrics !! k with
  | Some v => v
  | None => VNone
  end.

(** The line the last cell prints, and its inference call when the save
    has written [annotations] to [temp]. *)
Definition count_line (filtered_annotations : frame) : event :=
  EPrint "Unlabeled roofs in imagery file {}: {}"
         [VStr "kakuma_15.tif"; VInt (Z.of_nat (length (rows filtered_annotations)))].

Definition inference_event (annotations : frame) (temp : string) : event :=
  EInference checkpoint_f imagery_f temp out_f args
             (Some (FVector "GeoJSON" annotations)).

(** ** A sample environment *)

(** A geometry is within a box when each of its vertices is. *)
Definition vertex_in (b : Q * Q * Q * Q) (p : Q * Q) : bool :=
  match b, p with
  | (west, south, east, north), (x, y) =>
      Qle_bool west x && Qle_bool x east && Qle_bool south y && Qle_bool y north
  end.

Definition box_within (g : geom) (b : Q * Q * Q * Q) : bool :=
  match g with
  | Point x y => vertex_in b (x, y)
  | Polygon ring => forallb (vertex_in b) ring
  end.

Definition shift (dx dy : Q) (g : geom) : geom :=
  match g with
  | Point x y => Point (x + dx) (y + dy)
  | Polygon ring => Polygon (map (fun p => (fst p + dx, snd p + dy)%Q) ring)
  end.

Definition stored_frame (path : string) (f : gmap string file) : result frame :=
  match f !! path with
  | Some (FVector _ df) => Ok df
  | Some _ => Raise ValueError
  | None => Raise (FileNotFoundError path)
  end.

(** An environment in which every collaborator succeeds; [fail_inference]
    makes the inference script raise instead. *)
Definition sample_env (fail_inference : bool) : Externals := {|
  pickle_load_behaviour := fun _ _ => Ok ∅;
  read_file_behaviour := stored_frame;
  reproject := fun _ _ g => shift (1 # 2) 0 g;
  open_behaviour := fun _ _ => Ok {| raster_crs := Some 32636%Z; bounds := (0, 0, 10, 10)%Q |};
  geom_within := box_within;
  tempfile_name := fun suffix _ => "/tmp/tmpq1w2e3" +:+ suffix;
  to_file_fault := fun _ _ _ _ => None;
  mkdir_fault := fun _ _ => None;
  inference_behaviour := fun _ _ _ out _ f =>
    if fail_inference then (Raise (OtherError "CUDA"), f)
    else (Ok tt, <[out := FBlob "predictions"]> f)
|}.

Definition sample_row (i : Z) (building material : option string) (x y : Q) : row :=
  {| rid := i;
     attrs := list_to_map
       (match building with Some b => [("building", VStr b)] | None => [] end ++
        match material with Some m => [("roof:material", VStr m)] | None => [] end);
     geometry := Point x y |}.

Definition sample_frame : frame :=
  {| crs := Some 32636%Z;
     columns := ["building"; "roof:material"];
     rows := [sample_row 0 (Some "yes") None 1 1;
              sample_row 1 (Some "yes") (Some "metal_sheet") 2 2;
              sample_row 2 None None 3 3;
              sample_row 3 (Some "yes") None 50 50] |}.

Definition sample_world : world :=
  {| fs := {[ annotations_f := FVector "GPKG" sample_frame ]}; trace := [] |}.

Definition sample_metrics : gmap string pyval :=
  list_to_map
    [("train_losses", VList [FFin 0.9; FFin 0.6; FFin 0.4; FFin 0.3; FFin 0.25]);
     ("val_losses", VList [FFin 0.8; FFin 0.5; FFin 0.3; FFin 0.25; FFin 0.214]);
     ("test_loss", VNum 0.9%Q);
     ("test_accuracy", VNum (2 # 3));
     ("test_confusion_matrix", VMatrix [[8; 0; 0]; [1; 11; 0]; [0; 11; 5]]%Z);
     ("label_to_class",
      VLabels [(0, "metal_sheet"); (1, "plastic"); (2, "thatch"); (3, "other")]%Z)].

(** Matplotlib accepting every call, and matplotlib rejecting what it
    cannot draw: a curve that is not a sequence or a number, a marker
    whose height is not a number. *)
Definition quiet_pyplot : Pyplot := {| plt_fault := fun _ _ _ => None |}.

Definition drawable (v : pyval) : bool :=
  match v with
  | VList _ | VNum _ | VInt _ => true
  | _ => false
  end.

Definition strict_pyplot : Pyplot := {|
  plt_fault := fun _ fn args =>
    if String.eqb fn "plot" then
      match args with
      | v :: _ => if drawable v then None else Some "ValueError"
      | [] => None
      end
    else if String.eqb fn "scatter" then
      match args with
      | _ :: (VNum _ | VInt _) :: _ => None
      | _ => Some "ValueError"
      end
    else None
|}.

(** ** The keys of each metrics cell *)

Definition cell3_keys : list string := ["train_losses"; "val_losses"; "test_loss"].

Definition cell4_keys : list string :=
  ["label_to_class"; "test_accuracy"; "test_confusion_matrix"].

(** What the plotting cell has done when [min] rejects an empty
    [val_losses]. *)
Definition cell3_events_before_min (train : pyval) : list event :=
  [EPlt "figure" [VInt 5; VInt 3];
   EGetItem "train_losses"; EPlt "plot" [train; VStr "train"];
   EGetItem "val_losses"; EPlt "plot" [VList []; VStr "val"];
   EGetItem "val_losses"; EGetItem "val_losses"].

(** ** Environments in which a collaborator misbehaves *)

(** The save raises (leaving a partly written file), [mkdir] raises, or
    the inference script removes its building input before it returns. *)
Definition faulty_env (save_fails mkdir_fails inference_removes_input : bool)
  : Externals := {|
  pickle_load_behaviour := fun _ _ => Ok ∅;
  read_file_behaviour := stored_frame;
  reproject := fun _ _ g => g;
  open_behaviour := fun path f =>
    match f !! path with
    | Some _ => Ok {| raster_crs := Some 32636%Z; bounds := (0, 0, 10, 10)%Q |}
    | None => Raise (FileNotFoundError path)
    end;
  geom_within := box_within;
  tempfile_name := fun suffix _ => "/tmp/tmpq1w2e3" +:+ suffix;
  to_file_fault := fun _ path _ f =>
    if save_fails then Some (OtherError "disk full", <[path := FBlob "partial"]> f)
    else None;
  mkdir_fault := fun _ _ =>
    if mkdir_fails then Some (OtherError "permission denied") else None;
  inference_behaviour := fun _ _ buildings out _ f =>
    if inference_removes_input
    then (Ok tt, delete buildings (<[out := FBlob "predictions"]> f))
    else (Ok tt, <[out := FBlob "predictions"]> f)
|}.

(** An annotations file without the [building] column. *)
Definition frame_without_building : frame :=
  {| crs := Some 4326%Z; columns := ["roof:material"]; rows := [] |}.

Definition world_without_building : world :=
  {| fs := {[ annotations_f := FVector "GPKG" frame_without_building ]};
     trace := [] |}.

(** * Properties *)

Example best_epoch_ex :
  best_epoch [FFin 0.9; FFin 0.5; FFin 0.7; FFin 0.5; FFin 0.6] = Ok 1%nat.
Proof. reflexivity. Qed.

Example best_epoch_same_value_other_fraction :
  best_epoch [FFin (1 # 2); FFin (2 # 4); FFin (3 # 4)] = Ok 0%nat.
Proof. reflexivity. Qed.

Example best_epoch_empty : best_epoch [] = Raise ValueError.
Proof. reflexivity. Qed.

Example best_epoch_skips_later_nan :
  best_epoch [FFin 0.5; FNan; FFin 0.1] = Ok 2%nat.
Proof. reflexivity. Qed.

Example best_epoch_leading_nan_ex : best_epoch [FNan; FFin 0.1] = Ok 0%nat.
Proof. reflexivity. Qed.

Example best_epoch_infinities : best_epoch [FPosInf; FNegInf; FFin 1] = Ok 1%nat.
Proof. reflexivity. Qed.

Example index_of_min_of_a_string :
  exists index lowest,
    index_method (VStr "hello") = Ok index /\
    min_of (VStr "hello") = Ok lowest /\ index lowest = Ok 1%nat.
Proof. eexists _, _. repeat split. Qed.

Example percent_of_large_int :
  percent (VInt (10 ^ 400)) = Raise OverflowError /\
  percent (VInt (10 ^ 300)) = Ok (VNum (inject_Z (10 ^ 300 * 100))).
Proof. split; vm_compute; reflexivity. Qed.

(** ** Facts about the order of floats *)

Lemma Qltb_true x y : Qltb x y = true <-> (x < y)%Q.
Proof.
  unfold Qltb. rewrite negb_true_iff. split.
  - intros H. apply Qnot_le_lt. intros Hle.
    apply Qle_bool_iff in Hle. congruence.
  - intros H. destruct (Qle_bool y x) eqn:E; [|reflexivity].
    apply Qle_bool_iff in E. exfalso. eapply Qlt_not_le; eauto.
Qed.

Lemma Qltb_false x y : Qltb x y = false <-> (y <= x)%Q.
Proof.
  unfold Qltb. rewrite negb_false_iff. apply Qle_bool_iff.
Qed.

Lemma Qeq_bool_false x y : Qeq_bool x y = false <-> ~ (x == y)%Q.
Proof.
  split.
  - intros H Heq. apply Qeq_bool_iff in Heq. congruence.
  - intros H. destruct (Qeq_bool x y) eqn:E; [|reflexivity].
    apply Qeq_bool_iff in E. contradiction.
Qed.

Ltac to_props :=
  repeat match goal with
  | H : Qltb _ _ = true |- _ => apply Qltb_true in H
  | H : Qltb _ _ = false |- _ => apply Qltb_false in H
  | H : Qeq_bool _ _ = true |- _ => apply Qeq_bool_iff in H
  | H : Qeq_bool _ _ = false |- _ => apply Qeq_bool_false in H
  | |- Qltb _ _ = true => apply Qltb_true
  | |- Qltb _ _ = false => apply Qltb_false
  | |- Qeq_bool _ _ = true => apply Qeq_bool_iff
  | |- Qeq_bool _ _ = false => apply Qeq_bool_false
  end.

Ltac float_cases :=
  simpl in *; try discriminate; try reflexivity; try congruence;
  to_props; try lra.

Lemma flt_irrefl x : flt x x = false.
Proof. destruct x; float_cases. Qed.

Lemma flt_nan_r x : flt x FNan = false.
Proof. destruct x; reflexivity. Qed.

Lemma flt_not_nan x y : flt x y = true -> x <> FNan /\ y <> FNan.
Proof. destruct x, y; simpl; intros; try discriminate; split; discriminate. Qed.

Lemma feq_not_nan x y : feq x y = true -> x <> FNan /\ y <> FNan.
Proof. destruct x, y; simpl; intros; try discriminate; split; discriminate. Qed.

Lemma flt_trans x y z : flt x y = true -> flt y z = true -> flt x z = true.
Proof. destruct x, y, z; intros; float_cases. Qed.

(** [x < m] and not [c < m], with [c] not NaN, give [x < c]. *)
Lemma flt_below_not_above x m c :
  flt x m = true -> flt c m = false -> c <> FNan -> flt x c = true.
Proof. destruct x, m, c; intros; float_cases. Qed.

Lemma feq_flt_r a b x : feq a b = true -> flt x a = flt x b.
Proof.
  destruct a, b, x; intros; float_cases.
  destruct (Qltb q1 q) eqn:E1, (Qltb q1 q0) eqn:E2; float_cases.
Qed.

Lemma feq_flt_l a b x : feq a b = true -> flt a x = flt b x.
Proof.
  destruct a, b, x; intros; float_cases.
  destruct (Qltb q q1) eqn:E1, (Qltb q0 q1) eqn:E2; float_cases.
Qed.

Lemma feq_feq_r a b x : feq a b = true -> feq x a = feq x b.
Proof.
  destruct a, b, x; intros; float_cases.
  destruct (Qeq_bool q1 q) eqn:E1, (Qeq_bool q1 q0) eqn:E2; float_cases.
Qed.

Lemma flt_total x m :
  x <> FNan -> m <> FNan -> flt x m = false -> feq x m = false -> flt m x = true.
Proof.
  destruct x, m; intros; float_cases.
Qed.

Lemma not_below_fle x m :
  x <> FNan -> m <> FNan -> flt x m = false -> fle m x = true.
Proof.
  intros Hx Hm Hlt. unfold fle.
  destruct (feq m x) eqn:E; [apply orb_true_r|].
  rewrite (flt_total x m Hx Hm Hlt); [reflexivity|].
  destruct x, m; float_cases.
Qed.

(** ** Facts about [min] and [index] *)

Lemma min_from_not_below rest : forall best i,
  snd best <> FNan ->
  snd (min_from best i rest) <> FNan /\
  flt (snd best) (snd (min_from best i rest)) = false /\
  forall y, In y rest -> flt y (snd (min_from best i rest)) = false.
Proof.
  induction rest as [|x rest IH]; intros [p v] i Hv; cbn [min_from snd] in *.
  - split; [exact Hv|]. split; [apply flt_irrefl | intros y []].
  - destruct (flt x v) eqn:E.
    + destruct (IH (i, x) (S i)) as (Hn & Hx & Hr).
      { apply (flt_not_nan x v E). }
      cbn [snd] in *. split; [exact Hn|]. split.
      * destruct (flt v (snd (min_from (i, x) (S i) rest))) eqn:E2; [|reflexivity].
        rewrite (flt_trans _ _ _ E E2) in Hx. discriminate.
      * intros y [<-|Hy]; [exact Hx | now apply Hr].
    + destruct (IH (p, v) (S i) Hv) as (Hn & Hb & Hr).
      cbn [snd] in *. split; [exact Hn|]. split; [exact Hb|].
      intros y [<-|Hy]; [|now apply Hr].
      destruct (flt x (snd (min_from (p, v) (S i) rest))) eqn:E2; [|reflexivity].
      rewrite (flt_below_not_above _ _ _ E2 Hb Hv) in E. discriminate.
Qed.

Lemma min_from_lookup rest : forall pre best,
  (pre ++ rest) !! fst best = Some (snd best) ->
  (pre ++ rest) !! fst (min_from best (length pre) rest)
    = Some (snd (min_from best (length pre) rest)).
Proof.
  induction rest as [|x rest IH]; intros pre best Hb; cbn [min_from].
  - exact Hb.
  - replace (pre ++ x :: rest) with ((pre ++ [x]) ++ rest) in *
      by (rewrite <- app_assoc; reflexivity).
    replace (S (length pre)) with (length (pre ++ [x]))
      by (rewrite length_app; simpl; lia).
    apply IH. destruct (flt x (snd best)); [|exact Hb].
    cbn [fst snd]. rewrite <- app_assoc. now apply list_lookup_middle.
Qed.

Lemma min_from_nan rest : forall p i, min_from (p, FNan) i rest = (p, FNan).
Proof.
  induction rest as [|x rest IH]; intros p i; cbn [min_from snd]; [reflexivity|].
  rewrite flt_nan_r. apply IH.
Qed.

Lemma py_min_lookup (l : list pyfloat) :
  l <> [] -> exists p v, py_min l = Ok (p, v) /\ l !! p = Some v.
Proof.
  destruct l as [|a rest]; [congruence|]. intros _. cbn [py_min].
  pose proof (min_from_lookup rest [a] (0%nat, a) eq_refl) as H.
  cbn [length app] in H.
  destruct (min_from (0%nat, a) 1 rest) as [p v]. eauto.
Qed.

Lemma index_from_found l : forall j x k y,
  l !! k = Some y ->
  ((j + k =? fst x)%nat || feq y (snd x)) = true ->
  exists r, index_from j l x = Ok r.
Proof.
  induction l as [|a l IH]; intros j x k y Hk Hhit; [discriminate|].
  cbn [index_from].
  destruct ((j =? fst x)%nat || feq a (snd x)) eqn:E; [eauto|].
  destruct k as [|k].
  - cbn in Hk. injection Hk as ->. rewrite Nat.add_0_r in Hhit. congruence.
  - apply (IH (S j) x k y Hk). now rewrite Nat.add_succ_comm.
Qed.

Lemma index_from_Ok l : forall j x r,
  index_from j l x = Ok r ->
  exists k y,
    r = (j + k)%nat /\ l !! k = Some y /\
    ((j + k =? fst x)%nat || feq y (snd x)) = true /\
    forall k' y', (k' < k)%nat -> l !! k' = Some y' ->
                  ((j + k' =? fst x)%nat || feq y' (snd x)) = false.
Proof.
  induction l as [|a l IH]; intros j x r Hr; cbn [index_from] in Hr;
    [discriminate|].
  destruct ((j =? fst x)%nat || feq a (snd x)) eqn:E.
  - injection Hr as <-. exists 0%nat, a. rewrite Nat.add_0_r.
    repeat split; [exact E|]. intros k' y' Hk'. lia.
  - destruct (IH _ _ _ Hr) as (k & y & -> & Hy & Hhit & Hbefore).
    exists (S k), y. rewrite <- Nat.add_succ_comm.
    repeat split; [exact Hy | exact Hhit |].
    intros [|k'] y' Hk' Hy'.
    + cbn in Hy'. injection Hy' as <-. now rewrite Nat.add_0_r.
    + rewrite <- Nat.add_succ_comm. apply (Hbefore k' y'); [lia|exact Hy'].
Qed.

(** On a non-empty list [index] finds what [min] returned. *)
Lemma best_epoch_total (l : list pyfloat) :
  l <> [] -> exists i, best_epoch l = Ok i.
Proof.
  intros Hne. destruct (py_min_lookup l Hne) as (p & v & Hmin & Hp).
  unfold best_epoch, py_index. rewrite Hmin.
  apply (index_from_found l 0 (p, v) p v Hp).
  cbn [fst]. now rewrite Nat.eqb_refl.
Qed.

(** What [best_epoch l = Ok i] says: [min] returned the item at some
    position [p], the item at [i] is that item or is equal to it, and no
    earlier item is. *)
Lemma best_epoch_inv (l : list pyfloat) (i : nat) :
  best_epoch l = Ok i ->
  exists p v m,
    py_min l = Ok (p, v) /\ l !! p = Some v /\ l !! i = Some m /\
    (m = v \/ feq m v = true) /\
    (forall k y, (k < i)%nat -> l !! k = Some y -> feq y v = false) /\
    index_from 0 l (p, v) = Ok i.
Proof.
  intros Hi.
  assert (Hne : l <> []) by (intros ->; discriminate).
  destruct (py_min_lookup l Hne) as (p & v & Hmin & Hp).
  unfold best_epoch, py_index in Hi. rewrite Hmin in Hi.
  destruct (index_from_Ok _ _ _ _ Hi) as (k & m & -> & Hm & Hhit & Hbefore).
  cbn [Nat.add fst snd] in *.
  exists p, v, m. repeat split; try assumption.
  - apply orb_true_iff in Hhit as [Hpos|Heq]; [left|now right].
    apply Nat.eqb_eq in Hpos. subst k. congruence.
  - intros k' y Hk' Hy. specialize (Hbefore k' y Hk' Hy).
    now apply orb_false_iff in Hbefore as [_ ?].
Qed.

Lemma best_epoch_spec (l : list pyfloat) :
  l <> [] ->
  l !! 0%nat <> Some FNan ->
  exists i m,
    best_epoch l = Ok i /\ l !! i = Some m /\ m <> FNan /\
    (forall j x, l !! j = Some x -> flt x m = false) /\
    (forall j x, (j < i)%nat -> l !! j = Some x -> feq x m = false).
Proof.
  intros Hne Hhead.
  destruct (best_epoch_total l Hne) as [i Hi].
  destruct (best_epoch_inv l i Hi) as (p & v & m & Hmin & Hp & Hm & Hmv & Hbefore & _).
  destruct l as [|a rest]; [congruence|].
  assert (Ha : a <> FNan) by (intros ->; now apply Hhead).
  cbn [py_min] in Hmin. injection Hmin as Hmin.
  destruct (min_from_not_below rest (0%nat, a) 1 Ha) as (Hv & Hav & Hrest).
  rewrite Hmin in Hv, Hav, Hrest. cbn [snd] in *.
  assert (Hall : forall x, In x (a :: rest) -> flt x v = false).
  { intros x [<-|Hx]; [exact Hav | now apply Hrest]. }
  assert (Hsame : forall x, flt x m = flt x v /\ feq x m = feq x v).
  { intros x. destruct Hmv as [->|Heq]; [now split|].
    split; [now apply feq_flt_r | now apply feq_feq_r]. }
  exists i, m. repeat split; try assumption.
  - destruct Hmv as [->|Heq]; [exact Hv | apply (feq_not_nan _ _ Heq)].
  - intros j x Hx. rewrite (proj1 (Hsame x)). apply Hall.
    apply list_elem_of_In. eapply list_elem_of_lookup_2; eauto.
  - intros j x Hj Hx. rewrite (proj2 (Hsame x)). now apply (Hbefore j).
Qed.

Lemma best_epoch_leading_nan (rest : list pyfloat) :
  best_epoch (FNan :: rest) = Ok 0%nat.
Proof.
  unfold best_epoch, py_index. cbn [py_min]. rewrite min_from_nan. reflexivity.
Qed.

(** ** Running the metrics cells *)

Ltac run_cell :=
  unfold bind, plt, print, emit, getitem, lift, log; cbn [fs trace fst snd].

Lemma getitems_app (t1 t2 : list event) :
  getitems (t1 ++ t2) = getitems t1 ++ getitems t2.
Proof. unfold getitems. apply omap_app. Qed.

Ltac key_present H k v Hv :=
  let Hin := fresh in
  assert (Hin : k ∈ metrics_keys)
    by (apply list_elem_of_In; unfold metrics_keys; simpl; auto 10);
  destruct (H k Hin) as [v Hv]; clear Hin.

Ltac keys_included :=
  let k := fresh "k" in
  let Hk := fresh "Hk" in
  intros k Hk; apply list_elem_of_In in Hk; apply list_elem_of_In;
  unfold metrics_keys; simpl in *; intuition (subst; auto 10).

(** After a step of the plotting cell: what has been done is an initial
    part of the events of a complete run. *)
Ltac initial_part :=
  cbn [fst snd fs trace]; rewrite <- ?app_assoc; cbn [app];
  eexists _, _; split; [reflexivity|];
  split; [unfold cell3_events; reflexivity|];
  first [ exact I
        | reflexivity
        | split; [first [assumption | reflexivity]
                 | apply list_elem_of_In; simpl; auto 10] ].

Ltac plt_step leaf :=
  match goal with
  | |- context [plt_fault ?w ?f ?a] =>
      destruct (plt_fault w f a) eqn:?; cbn [fst snd fs trace];
      [solve [leaf]|]
  end.

(** Whatever matplotlib does and whichever other keys the dictionary
    has, the plotting cell does an initial part of [cell3_events], all of
    it when it completes; it stops early only on an exception of
    matplotlib or on a [KeyError] for a key that is absent. *)
Lemma cell3_plot_initial_part `{Pyplot} (metrics : gmap string pyval)
    (val : pyval) (l : list pyfloat) (i : nat) (w : world) :
  metrics !! "val_losses" = Some val ->
  as_sequence val = Some l ->
  best_epoch l = Ok i ->
  exists done rest,
    snd (cell3_plot metrics w) = {| fs := fs w; trace := trace w ++ done |} /\
    cell3_events (value_or_none metrics "train_losses") val
                 (value_or_none metrics "test_loss") i = done ++ rest /\
    match fst (cell3_plot metrics w) with
    | Ok _ => rest = []
    | Raise (PyplotError _) => True
    | Raise (KeyError k) => metrics !! k = None /\ k ∈ cell3_keys
    | Raise _ => False
    end.
Proof.
  intros Hval Hseq Hbest. unfold best_epoch in Hbest.
  destruct (py_min l) as [lowest|e] eqn:Hmin; [|discriminate].
  unfold cell3_plot, value_or_none. run_cell. rewrite Hval.
  plt_step initial_part.
  destruct (metrics !! "train_losses") as [train|] eqn:Ht;
    cbn [fst snd fs trace]; [|solve [initial_part]].
  plt_step initial_part. plt_step initial_part.
  unfold index_method, min_of. rewrite Hseq. cbn [fst snd fs trace].
  rewrite Hmin. cbn [fst snd fs trace]. rewrite Hbest. cbn [fst snd fs trace].
  destruct (metrics !! "test_loss") as [test_loss|] eqn:Hl;
    cbn [fst snd fs trace]; [|solve [initial_part]].
  do 7 (plt_step initial_part).
  initial_part.
Qed.

(** The complete run, when matplotlib accepts every call. *)
Lemma cell3_plot_run `{Pyplot} (metrics : gmap string pyval)
    (train val test_loss : pyval) (l : list pyfloat) (i : nat) (w : world) :
  (forall w' fn a, plt_fault w' fn a = None) ->
  metrics !! "train_losses" = Some train ->
  metrics !! "val_losses" = Some val ->
  metrics !! "test_loss" = Some test_loss ->
  as_sequence val = Some l ->
  best_epoch l = Ok i ->
  cell3_plot metrics w =
    (Ok tt, {| fs := fs w;
               trace := trace w ++ cell3_events train val test_loss i |}).
Proof.
  intros Hquiet Htrain Hval Htest Hseq Hbest. unfold best_epoch in Hbest.
  destruct (py_min l) as [lowest|e] eqn:Hmin; [|discriminate].
  unfold cell3_plot. run_cell. rewrite Htrain, Hval, Htest.
  do 3 (rewrite Hquiet; cbn [fst snd fs trace]).
  unfold index_method, min_of. rewrite Hseq. cbn [fst snd fs trace].
  rewrite Hmin. cbn [fst snd fs trace]. rewrite Hbest. cbn [fst snd fs trace].
  do 7 (rewrite Hquiet; cbn [fst snd fs trace]).
  rewrite <- !app_assoc. reflexivity.
Qed.

Lemma getitems_cell3_events train val test_loss i :
  getitems (cell3_events train val test_loss i)
  = ["train_losses"; "val_losses"; "val_losses"; "val_losses"; "test_loss"].
Proof. reflexivity. Qed.

(** The keys subscripted in an initial part of a complete run. *)
Lemma getitems_initial_part train val test_loss i (done rest : list event) :
  cell3_events train val test_loss i = done ++ rest ->
  forall k, k ∈ getitems done -> k ∈ cell3_keys.
Proof.
  intros Hsplit k Hk.
  assert (Hin : k ∈ getitems (cell3_events train val test_loss i)).
  { rewrite Hsplit, getitems_app. apply elem_of_app. now left. }
  rewrite getitems_cell3_events in Hin.
  apply list_elem_of_In in Hin. apply list_elem_of_In.
  unfold cell3_keys. simpl in *. intuition (subst; auto 10).
Qed.

(** C8, as amended.  For a non-empty [val_losses] whose first loss is
    not NaN, [best_epoch] is defined and is an index of the list; the
    loss at that index is not NaN; every loss of the list is NaN or not
    below it, and every loss at an earlier index is NaN or strictly above
    it.  So, with no NaN in the list, it is the smallest index at which
    the minimum is attained.  Whatever matplotlib does, what the plotting
    cell does is an initial part of [cell3_events], whose one [scatter]
    call has that index as first coordinate and the test loss as second,
    and all of it when the cell completes, as it does when matplotlib
    accepts every call and [train_losses] and [test_loss] are there. *)
Theorem best_epoch_first_argmin (val_losses : list pyfloat) :
  val_losses <> [] ->
  val_losses !! 0%nat <> Some FNan ->
  exists i m,
    best_epoch val_losses = Ok i /\
    val_losses !! i = Some m /\ m <> FNan /\
    (forall j x, val_losses !! j = Some x -> x = FNan \/ fle m x = true) /\
    (forall j x, (j < i)%nat -> val_losses !! j = Some x ->
                 x = FNan \/ flt m x = true) /\
    (forall (P : Pyplot) (metrics : gmap string pyval) (w : world),
        metrics !! "val_losses" = Some (VList val_losses) ->
        (exists done rest,
            snd (cell3_plot metrics w)
              = {| fs := fs w; trace := trace w ++ done |} /\
            cell3_events (value_or_none metrics "train_losses") (VList val_losses)
                         (value_or_none metrics "test_loss") i = done ++ rest /\
            (fst (cell3_plot metrics w) = Ok tt -> rest = [])) /\
        ((forall w' fn a, plt_fault w' fn a = None) ->
         is_Some (metrics !! "train_losses") ->
         is_Some (metrics !! "test_loss") ->
         fst (cell3_plot metrics w) = Ok tt)).
Proof.
  intros Hne Hhead.
  destruct (best_epoch_spec val_losses Hne Hhead)
    as (i & m & Hi & Hm & Hnan & Hlow & Hfirst).
  exists i, m.
  split; [exact Hi|]. split; [exact Hm|]. split; [exact Hnan|].
  split; [|split].
  - intros j x Hx. destruct x as [| |q|]; [now left|right..];
      (apply not_below_fle; [discriminate | exact Hnan | eapply Hlow; eauto]).
  - intros j x Hj Hx. destruct x as [| |q|]; [now left|right..];
      (apply flt_total;
       [discriminate | exact Hnan | eapply Hlow; eauto | eapply Hfirst; eauto]).
  - intros P metrics w Hval. split.
    + destruct (cell3_plot_initial_part metrics (VList val_losses) val_losses i w
                  Hval eq_refl Hi) as (done & rest & Hsnd & Hsplit & Hout).
      exists done, rest. split; [exact Hsnd|]. split; [exact Hsplit|].
      intros Hok. rewrite Hok in Hout. exact Hout.
    + intros Hquiet [train Htrain] [test_loss Htest].
      now rewrite (cell3_plot_run metrics train (VList val_losses) test_loss
                     val_losses i w Hquiet Htrain Hval Htest eq_refl Hi).
Qed.

Lemma best_epoch_first_argmin_witness :
  exists i m,
    best_epoch [FFin 0.8; FFin 0.5; FNan; FFin 0.25; FFin 0.214; FFin 0.214] = Ok i /\
    [FFin 0.8; FFin 0.5; FNan; FFin 0.25; FFin 0.214; FFin 0.214] !! i = Some m /\
    i = 4%nat /\
    fst (cell3_plot (H := quiet_pyplot)
           (<["val_losses" :=
                VList [FFin 0.8; FFin 0.5; FNan; FFin 0.25; FFin 0.214; FFin 0.214]]>
              sample_metrics) sample_world) = Ok tt.
Proof.
  destruct (best_epoch_first_argmin
              [FFin 0.8; FFin 0.5; FNan; FFin 0.25; FFin 0.214; FFin 0.214])
    as (i & m & Hi & Hm & _ & _ & _ & Hcell); [discriminate | discriminate |].
  exists i, m. split; [exact Hi|]. split; [exact Hm|].
  split; [vm_compute in Hi; congruence|].
  apply (Hcell quiet_pyplot).
  - reflexivity.
  - reflexivity.
  - eexists. reflexivity.
  - eexists. reflexivity.
Defined.

(** C8, as stated, fails on a list that starts with NaN: at [nan, 0.1]
    the best epoch is 0, where the loss is NaN, which is not below or
    equal to the loss 0.1 at index 1. *)
Lemma best_epoch_not_argmin_with_nan :
  ~ (forall val_losses : list pyfloat,
        val_losses <> [] ->
        exists i m,
          best_epoch val_losses = Ok i /\ val_losses !! i = Some m /\
          (forall j x, val_losses !! j = Some x -> fle m x = true) /\
          (forall j x, (j < i)%nat -> val_losses !! j = Some x -> flt m x = true)).
Proof.
  intros Hclaim.
  destruct (Hclaim [FNan; FFin 0.1]) as (i & m & Hi & Hm & Hle & _);
    [discriminate|].
  rewrite best_epoch_leading_nan in Hi. injection Hi as <-.
  injection Hm as <-.
  specialize (Hle 1%nat (FFin 0.1) eq_refl). discriminate.
Qed.

Lemma cell4_print_no_key_error (metrics : gmap string pyval) labels accuracy matrix w :
  metrics !! "label_to_class" = Some labels ->
  metrics !! "test_accuracy" = Some accuracy ->
  metrics !! "test_confusion_matrix" = Some matrix ->
  (forall k, fst (cell4_print metrics w) <> Raise (KeyError k)) /\
  exists ks, getitems (trace (snd (cell4_print metrics w))) = getitems (trace w) ++ ks /\
             forall k, k ∈ ks -> k ∈ metrics_keys.
Proof.
  intros Hl Ha Hm. unfold cell4_print. run_cell. rewrite Hl, Ha.
  destruct (percent accuracy) as [shown|e] eqn:Hp; cbn [fs trace fst snd].
  - rewrite Hm. cbn [fst snd trace]. split; [discriminate|].
    exists ["label_to_class"; "test_accuracy"; "test_confusion_matrix"].
    split.
    + rewrite !getitems_app. cbn. rewrite ?app_nil_r, <- ?app_assoc. reflexivity.
    + keys_included.
  - split.
    + intros k Hk. injection Hk as ->.
      destruct accuracy; unfold percent in Hp; try congruence.
      destruct (Z.abs (n * 100) <? float_int_limit)%Z; congruence.
    + exists ["label_to_class"; "test_accuracy"]. split.
      * rewrite !getitems_app. cbn. rewrite ?app_nil_r, <- ?app_assoc. reflexivity.
      * keys_included.
Qed.

(** C4.  Let the metrics dictionary hold the six keys, [val_losses] being
    a non-empty list.  Then, whatever matplotlib does, neither the
    plotting cell nor the printing cell raises a [KeyError], and every key
    either cell subscripts is one of the six. *)
Theorem metrics_cells_key_safe `{Pyplot} (metrics : gmap string pyval)
    (l : list pyfloat) (w3 w4 : world) :
  (forall k, k ∈ metrics_keys -> is_Some (metrics !! k)) ->
  metrics !! "val_losses" = Some (VList l) ->
  l <> [] ->
  (forall k, fst (cell3_plot metrics w3) <> Raise (KeyError k)) /\
  (forall k, fst (cell4_print metrics w4) <> Raise (KeyError k)) /\
  (exists ks, getitems (trace (snd (cell3_plot metrics w3))) = getitems (trace w3) ++ ks /\
              forall k, k ∈ ks -> k ∈ metrics_keys) /\
  (exists ks, getitems (trace (snd (cell4_print metrics w4))) = getitems (trace w4) ++ ks /\
              forall k, k ∈ ks -> k ∈ metrics_keys).
Proof.
  intros Hkeys Hval Hne.
  key_present Hkeys "train_losses" train Htrain.
  key_present Hkeys "test_loss" test_loss Htest.
  key_present Hkeys "label_to_class" labels Hlabels.
  key_present Hkeys "test_accuracy" accuracy Hacc.
  key_present Hkeys "test_confusion_matrix" matrix Hmatrix.
  destruct (best_epoch_total l Hne) as [i Hi].
  destruct (cell4_print_no_key_error metrics labels accuracy matrix w4 Hlabels Hacc Hmatrix)
    as (Hno & Hks).
  destruct (cell3_plot_initial_part metrics (VList l) l i w3 Hval eq_refl Hi)
    as (done & rest & Hsnd & Hsplit & Hout).
  split; [|split; [exact Hno|split; [|exact Hks]]].
  - intros k Hk. rewrite Hk in Hout. destruct Hout as [Hnone Hin].
    apply list_elem_of_In in Hin. unfold cell3_keys in Hin. simpl in Hin.
    destruct Hin as [<-|[<-|[<-|[]]]]; congruence.
  - exists (getitems done). rewrite Hsnd. cbn [trace]. split.
    + apply getitems_app.
    + intros k Hk. pose proof (getitems_initial_part _ _ _ _ _ _ Hsplit k Hk) as Hin.
      apply list_elem_of_In in Hin. apply list_elem_of_In.
      unfold cell3_keys, metrics_keys in *. simpl in *. intuition (subst; auto 10).
Qed.

Lemma metrics_cells_key_safe_witness :
  (forall k, k ∈ metrics_keys -> is_Some (sample_metrics !! k)) /\
  (forall k, fst (cell3_plot (H := strict_pyplot) sample_metrics sample_world)
             <> Raise (KeyError k)) /\
  fst (cell3_plot (H := strict_pyplot) sample_metrics sample_world) = Ok tt /\
  fst (cell4_print sample_metrics sample_world) = Ok tt.
Proof.
  assert (Hkeys : forall k, k ∈ metrics_keys -> is_Some (sample_metrics !! k)).
  { intros k Hk. unfold metrics_keys in Hk.
    repeat (apply elem_of_cons in Hk; destruct Hk as [->|Hk];
            [vm_compute; eauto|]).
    apply elem_of_nil in Hk. contradiction. }
  split; [exact Hkeys|].
  destruct (metrics_cells_key_safe (H := strict_pyplot) sample_metrics
              [FFin 0.8; FFin 0.5; FFin 0.3; FFin 0.25; FFin 0.214]
              sample_world sample_world)
    as (H3 & _).
  - exact Hkeys.
  - reflexivity.
  - discriminate.
  - split; [exact H3|]. split; reflexivity.
Defined.

Example strict_pyplot_rejects_none :
  fst (cell3_plot (H := strict_pyplot)
         (<["train_losses" := VNone]> sample_metrics) sample_world)
    = Raise (PyplotError "ValueError") /\
  fst (cell3_plot (H := strict_pyplot)
         (<["test_loss" := VList [FFin 0.1; FFin 0.2]]> sample_metrics) sample_world)
    = Raise (PyplotError "ValueError").
Proof. split; vm_compute; reflexivity. Qed.

(** ** Selecting and filtering rows *)

Lemma select_mask (rs : list row) :
  series_and
    (series_not (isna (map (fun r => attrs r !! "building") rs)))
    (isna (map (fun r => attrs r !! "roof:material") rs))
  = map unlabeled rs.
Proof.
  induction rs as [|r rs IH]; simpl; [reflexivity|].
  f_equal. exact IH.
Qed.

Lemma mask_rows_map (p : row -> bool) (rs : list row) :
  mask_rows rs (map p rs) = List.filter p rs.
Proof.
  induction rs as [|r rs IH]; simpl; [reflexivity|].
  destruct (p r); rewrite IH; reflexivity.
Qed.

Lemma filter_sublist {A} (p : A -> bool) (l : list A) :
  sublist (List.filter p l) l.
Proof.
  induction l as [|a l IH]; simpl.
  - constructor.
  - destruct (p a); [apply sublist_skip | apply sublist_cons]; exact IH.
Qed.

Lemma elem_of_bool_filter {A} (p : A -> bool) (l : list A) (x : A) :
  x ∈ List.filter p l <-> x ∈ l /\ p x = true.
Proof. rewrite !list_elem_of_In. apply filter_In. Qed.

Lemma select_unlabeled_rows (df : frame) :
  "building" ∈ columns df ->
  "roof:material" ∈ columns df ->
  select_unlabeled df = Ok (with_rows df (List.filter unlabeled (rows df))).
Proof.
  intros Hb Hm. unfold select_unlabeled, getcol.
  rewrite !decide_True by assumption.
  cbv zeta. rewrite select_mask, mask_rows_map. reflexivity.
Qed.

(** C6.  Let the annotations be loaded as the cell does it (read, then
    brought to EPSG:32636) into a frame that has the two columns.  The
    selection then succeeds, and its result has the CRS and the columns
    of the loaded frame; its rows are rows of the loaded frame, in their
    order and as they are; each has a [building] value that is not null
    and a null [roof:material]; and each comes from a row of the file with
    the same label and the same attribute cells, the file's geometry
    being the one the load transformed. *)
Theorem selection_keeps_unlabeled_rows `{Externals} (raw loaded : frame) :
  to_crs 32636 raw = Ok loaded ->
  "building" ∈ columns raw ->
  "roof:material" ∈ columns raw ->
  exists selected,
    select_unlabeled loaded = Ok selected /\
    crs selected = crs loaded /\ columns selected = columns loaded /\
    sublist (rows selected) (rows loaded) /\
    (forall r, r ∈ rows selected ->
       (exists v, attrs r !! "building" = Some v /\ v <> VNone) /\
       is_null (attrs r !! "roof:material") = true) /\
    (forall r, r ∈ rows selected ->
       exists r0 from, r0 ∈ rows raw /\ crs raw = Some from /\
         rid r = rid r0 /\ attrs r = attrs r0 /\
         geometry r = reproject from 32636 (geometry r0)).
Proof.
  intros Hload Hb Hm. unfold to_crs in Hload.
  destruct (crs raw) as [from|] eqn:Hcrs; [|discriminate].
  injection Hload as <-.
  eexists. split; [apply select_unlabeled_rows; assumption|].
  cbn [with_rows crs columns rows].
  split; [reflexivity|]. split; [reflexivity|].
  split; [apply filter_sublist|]. split.
  - intros r Hr. apply elem_of_bool_filter in Hr as [_ Hr].
    unfold unlabeled in Hr. apply andb_true_iff in Hr as [Hr1 Hr2].
    split; [|exact Hr2].
    destruct (attrs r !! "building") as [v|]; [|discriminate].
    exists v. split; [reflexivity|]. intros ->. discriminate.
  - intros r Hr. apply elem_of_bool_filter in Hr as [Hr _].
    apply list_elem_of_fmap in Hr as (r0 & -> & Hr0).
    exists r0, from. repeat split; assumption.
Qed.

Lemma selection_keeps_unlabeled_rows_witness :
  exists selected,
    to_crs (H := sample_env false) 32636 sample_frame
      = Ok (with_rows sample_frame (map (fun r => {| rid := rid r; attrs := attrs r;
                                                      geometry := shift (1 # 2) 0 (geometry r) |})
                                        (rows sample_frame))) /\
    select_unlabeled
      (with_rows sample_frame (map (fun r => {| rid := rid r; attrs := attrs r;
                                                geometry := shift (1 # 2) 0 (geometry r) |})
                                   (rows sample_frame))) = Ok selected /\
    length (rows selected) = 2%nat.
Proof.
  destruct (selection_keeps_unlabeled_rows (H := sample_env false) sample_frame
              (with_rows sample_frame (map (fun r => {| rid := rid r; attrs := attrs r;
                                                        geometry := shift (1 # 2) 0 (geometry r) |})
                                           (rows sample_frame))))
    as (selected & Hsel & _).
  - reflexivity.
  - apply list_elem_of_In. simpl. auto.
  - apply list_elem_of_In. simpl. auto.
  - exists selected. split; [reflexivity|]. split; [exact Hsel|].
    vm_compute in Hsel. injection Hsel as <-. reflexivity.
Defined.

(** C2.  The rows [filter_points_to_raster] returns are exactly the rows
    of its input whose geometry is within the bounds of the raster: a row
    is returned if and only if it is an input row within the bounds, the
    returned rows are input rows in their order and as they are, and the
    CRS and the columns are those of the input. *)
Theorem filter_points_to_raster_exact `{Externals} (points : frame) (src : raster) :
  (forall r, r ∈ rows (filter_points_to_raster points src) <->
             r ∈ rows points /\ geom_within (geometry r) (bounds src) = true) /\
  sublist (rows (filter_points_to_raster points src)) (rows points) /\
  crs (filter_points_to_raster points src) = crs points /\
  columns (filter_points_to_raster points src) = columns points.
Proof.
  unfold filter_points_to_raster. cbn [with_rows rows crs columns].
  split; [|split; [apply filter_sublist | split; reflexivity]].
  intros r.
  exact (elem_of_bool_filter (fun r => geom_within (geometry r) (bounds src))
                             (rows points) r).
Qed.

(** ** Running the last cell *)


Ltac run_tail :=
  unfold cell5_tail, save_and_infer, try_finally, NamedTemporaryFile, to_file,
    mkdir, roof_material_inference, unlink, bind, print, emit, log, set_fs,
    count_line, inference_event;
  cbn [fs trace].

Ltac close_run := cbn [fs trace]; rewrite <- ?app_assoc; reflexivity.

Section LastCell.
Context `{Externals}.

Lemma try_finally_unlink {A} (body : M A) (p : string) (w : world) :
  fs (snd (try_finally body (unlink p) w)) !! p = None.
Proof.
  unfold try_finally, unlink.
  destruct (body w) as [r w1].
  destruct (fs w1 !! p) eqn:Hp; cbn [snd fs log set_fs].
  - apply lookup_delete_eq.
  - exact Hp.
Qed.

(** What the cell does after the raster filter: one outcome, one final
    file system and one list of events for all values of
    [filtered_annotations]; the events are those of the save, of
    [mkdir] and of the inference call, as far as the [try] block gets,
    and the [unlink] comes last. *)
Lemma cell5_tail_run (annotations : frame) (w : world) :
  let temp := tempfile_name ".gpkg" (fs w) in
  let created := <[temp := FEmpty]> (fs w) in
  let saved := <[temp := FVector "GeoJSON" annotations]> created in
  exists r f' t,
    (forall filtered_annotations,
        cell5_tail annotations filtered_annotations w =
          (r, {| fs := f';
                 trace := trace w ++ count_line filtered_annotations
                                  :: t ++ [EUnlink temp] |})) /\
    f' !! temp = None /\
    ((t = [EToFile annotations temp "GeoJSON"] /\
      to_file_fault annotations temp "GeoJSON" created <> None) \/
     (t = [EToFile annotations temp "GeoJSON"; EMkdir (path_parent out_f)] /\
      mkdir_fault (path_parent out_f) saved <> None) \/
     (t = [EToFile annotations temp "GeoJSON"; EMkdir (path_parent out_f);
           inference_event annotations temp] /\
      to_file_fault annotations temp "GeoJSON" created = None /\
      mkdir_fault (path_parent out_f) saved = None)).
Proof.
  intros temp created saved.
  destruct (to_file_fault annotations temp "GeoJSON" created)
    as [[e f1]|] eqn:Hsave.
  { destruct (f1 !! temp) as [x|] eqn:Hf1.
    - exists (Raise e), (delete temp f1), [EToFile annotations temp "GeoJSON"].
      split; [|split; [apply lookup_delete_eq | left; split; [reflexivity|discriminate]]].
      intros filtered. run_tail. fold temp. fold created.
      rewrite Hsave. cbn [fs trace]. rewrite Hf1. close_run.
    - exists (Raise (FileNotFoundError temp)), f1, [EToFile annotations temp "GeoJSON"].
      split; [|split; [exact Hf1 | left; split; [reflexivity|discriminate]]].
      intros filtered. run_tail. fold temp. fold created.
      rewrite Hsave. cbn [fs trace]. rewrite Hf1. close_run. }
  assert (Hsaved : saved !! temp = Some (FVector "GeoJSON" annotations))
    by apply lookup_insert_eq.
  destruct (mkdir_fault (path_parent out_f) saved) as [e|] eqn:Hmk.
  { exists (Raise e), (delete temp saved),
      [EToFile annotations temp "GeoJSON"; EMkdir (path_parent out_f)].
    split; [|split; [apply lookup_delete_eq
                    | right; left; split; [reflexivity|congruence]]].
    intros filtered. run_tail. fold temp. fold created.
    rewrite Hsave. cbn [fs trace]. fold saved.
    rewrite Hmk. cbn [fs trace]. rewrite Hsaved. close_run. }
  destruct (inference_behaviour checkpoint_f imagery_f temp out_f args saved)
    as [r0 f3] eqn:Hinf.
  destruct (f3 !! temp) as [x|] eqn:Hf3.
  - exists r0, (delete temp f3),
      [EToFile annotations temp "GeoJSON"; EMkdir (path_parent out_f);
       inference_event annotations temp].
    split; [|split; [apply lookup_delete_eq
                    | right; right; repeat split; assumption]].
    intros filtered. run_tail. fold temp. fold created.
    rewrite Hsave. cbn [fs trace]. fold saved.
    rewrite Hmk. cbn [fs trace]. rewrite Hinf, Hsaved. cbn [fs trace].
    rewrite Hf3. close_run.
  - exists (Raise (FileNotFoundError temp)), f3,
      [EToFile annotations temp "GeoJSON"; EMkdir (path_parent out_f);
       inference_event annotations temp].
    split; [|split; [exact Hf3 | right; right; repeat split; assumption]].
    intros filtered. run_tail. fold temp. fold created.
    rewrite Hsave. cbn [fs trace]. fold saved.
    rewrite Hmk. cbn [fs trace]. rewrite Hinf, Hsaved. cbn [fs trace].
    rewrite Hf3. close_run.
Qed.
End LastCell.

Lemma inference_calls_app (t1 t2 : list event) :
  inference_calls (t1 ++ t2) = inference_calls t1 ++ inference_calls t2.
Proof. unfold inference_calls. apply omap_app. Qed.

(** C3.  Whatever the save, [mkdir] and the inference call do, return or
    raise, the file named by [temp.name] does not exist once the cell has
    run and the [unlink] of that name is the last thing the cell did; the
    same holds for any body put in the [try] block. *)
Theorem temp_file_unlinked_in_every_case `{Externals}
    (annotations filtered_annotations : frame) (w : world) :
  fs (snd (cell5_tail annotations filtered_annotations w))
     !! tempfile_name ".gpkg" (fs w) = None /\
  (exists t, trace (snd (cell5_tail annotations filtered_annotations w))
             = t ++ [EUnlink (tempfile_name ".gpkg" (fs w))]) /\
  (forall (body : M unit) (temp : string) (w0 : world),
      fs (snd (try_finally body (unlink temp) w0)) !! temp = None).
Proof.
  destruct (cell5_tail_run annotations w) as (r & f' & t & Hrun & Hgone & _).
  rewrite (Hrun filtered_annotations). cbn [snd fs trace].
  split; [exact Hgone|]. split.
  - exists (trace w ++ count_line filtered_annotations :: t).
    rewrite <- app_assoc. reflexivity.
  - intros body temp w0. apply try_finally_unlink.
Qed.


(** C1, as amended.  The cell calls the inference function at most once,
    and exactly once when the save and [mkdir] succeed.  The call has five
    positional arguments: the checkpoint path, the path of one imagery
    file (a [.tif]), the name of the temporary file as the building
    input, the output path [out_f], and a namespace that holds
    [batch_size = 64], [num_workers = 12] and the device [cuda:0]. *)
Theorem inference_call_arguments `{Externals}
    (annotations filtered_annotations : frame) (w : world) :
  let temp := tempfile_name ".gpkg" (fs w) in
  let created := <[temp := FEmpty]> (fs w) in
  let saved := <[temp := FVector "GeoJSON" annotations]> created in
  exists calls,
    inference_calls (trace (snd (cell5_tail annotations filtered_annotations w)))
      = inference_calls (trace w) ++ calls /\
    (calls = [] \/
     calls = [(checkpoint_f, imagery_f, temp, out_f,
               [("batch_size", VInt 64); ("num_workers", VInt 12);
                ("device", VDevice "cuda:0")])]) /\
    (to_file_fault annotations temp "GeoJSON" created = None ->
     mkdir_fault (path_parent out_f) saved = None ->
     calls <> []) /\
    ends_with ".tif" imagery_f = true /\
    ends_with "-predictions.gpkg" out_f = true.
Proof.
  intros temp created saved.
  destruct (cell5_tail_run annotations w) as (r & f' & t & Hrun & _ & Hshape).
  rewrite (Hrun filtered_annotations). cbn [snd trace].
  exists (inference_calls t).
  split.
  { rewrite inference_calls_app.
    change (count_line filtered_annotations :: t ++ [EUnlink (tempfile_name ".gpkg" (fs w))])
      with ([count_line filtered_annotations] ++ t ++ [EUnlink (tempfile_name ".gpkg" (fs w))]).
    rewrite !inference_calls_app. cbn. rewrite app_nil_r. reflexivity. }
  split; [|split; [|split; reflexivity]].
  - destruct Hshape as [[-> _]|[[-> _]|[-> _]]]; cbn; auto.
  - intros Hsave Hmk.
    destruct Hshape as [[_ Hf]|[[_ Hf]|[-> _]]]; [contradiction..|].
    cbn. discriminate.
Qed.

Lemma inference_call_arguments_witness :
  inference_calls (trace (snd (cell5_tail (H := sample_env false)
                                  sample_frame sample_frame sample_world)))
  = [(checkpoint_f, imagery_f, "/tmp/tmpq1w2e3.gpkg", out_f, args)].
Proof.
  destruct (inference_call_arguments (H := sample_env false)
              sample_frame sample_frame sample_world)
    as (calls & Hcalls & [-> | ->] & Hmade & _).
  - exfalso. apply Hmade; reflexivity.
  - rewrite Hcalls. reflexivity.
Defined.

(** C1, as stated, fails: in a run in which every collaborator succeeds
    the inference call is given seven values, the output path among them,
    and not the six that are listed. *)
Lemma inference_call_not_as_listed :
  ~ (forall c,
        c ∈ inference_calls (trace (snd (cell5 (H := sample_env false) sample_world))) ->
        parameter_count c = length listed_parameters).
Proof.
  intros Hall.
  specialize (Hall (checkpoint_f, imagery_f, "/tmp/tmpq1w2e3.gpkg", out_f, args)).
  assert (Hin : (checkpoint_f, imagery_f, "/tmp/tmpq1w2e3.gpkg", out_f, args)
                ∈ inference_calls
                    (trace (snd (cell5 (H := sample_env false) sample_world)))).
  { apply list_elem_of_In. vm_compute. left. reflexivity. }
  specialize (Hall Hin). vm_compute in Hall. discriminate.
Qed.

(** C5.  The flags of the [train.py] command line are [--exp-version],
    [--data-dir], [--tile-split-file] and [--output-dir]; those of the
    [inference.py] command line are [--checkpoint-path], [--image-dir]
    and [--building-detections-dir]. *)
Theorem command_lines_have_documented_flags :
  String.words train_command !! 1%nat = Some "train.py" /\
  flags train_command
    = ["--exp-version"; "--data-dir"; "--tile-split-file"; "--output-dir"] /\
  String.words inference_command !! 1%nat = Some "inference.py" /\
  flags inference_command
    = ["--checkpoint-path"; "--image-dir"; "--building-detections-dir"].
Proof. repeat split; vm_compute; reflexivity. Qed.

(** ** Sample runs *)

Example sample_run_succeeds :
  let '(r, w) := cell5 (H := sample_env false) sample_world in
  r = Ok tt /\
  fs w !! "/tmp/tmpq1w2e3.gpkg" = None /\
  fs w !! out_f = Some (FBlob "predictions") /\
  getitems (trace w) = [] /\
  length (trace w) = 5%nat.
Proof. vm_compute. repeat split; reflexivity. Qed.

Example sample_run_inference_raises :
  let '(r, w) := cell5 (H := sample_env true) sample_world in
  r = Raise (OtherError "CUDA") /\
  fs w !! "/tmp/tmpq1w2e3.gpkg" = None /\
  fs w !! out_f = None.
Proof. vm_compute. repeat split; reflexivity. Qed.

Example sample_filter_counts :
  length (rows sample_frame) = 4%nat /\
  (exists selected, select_unlabeled sample_frame = Ok selected /\
     map rid (rows selected) = [0; 3]%Z /\
     map rid (rows (filter_points_to_raster (H := sample_env false) selected
                      {| raster_crs := Some 32636%Z; bounds := (0, 0, 10, 10)%Q |}))
       = [0%Z]).
Proof. split; [reflexivity|]. eexists. split; [reflexivity|]. split; reflexivity. Qed.

Example path_name_ex : path_name imagery_f = "kakuma_15.tif".
Proof. reflexivity. Qed.

Example path_parent_ex :
  path_parent out_f =
  "../outputs/roof_material_classification/example-2024-01-19-01-44-00/inference/epoch=4_val_loss=0.2140".
Proof. reflexivity. Qed.

(** ** The theorems at the sample environment *)

Lemma filter_points_to_raster_exact_witness :
  map rid (rows (filter_points_to_raster (H := sample_env false) sample_frame
                   {| raster_crs := Some 32636%Z; bounds := (0, 0, 10, 10)%Q |}))
    = [0; 1; 2]%Z /\
  sublist
    (rows (filter_points_to_raster (H := sample_env false) sample_frame
             {| raster_crs := Some 32636%Z; bounds := (0, 0, 10, 10)%Q |}))
    (rows sample_frame).
Proof.
  split; [reflexivity|].
  apply (filter_points_to_raster_exact (H := sample_env false) sample_frame
           {| raster_crs := Some 32636%Z; bounds := (0, 0, 10, 10)%Q |}).
Defined.

Lemma temp_file_unlinked_in_every_case_witness :
  fs (snd (cell5_tail (H := sample_env true) sample_frame sample_frame sample_world))
     !! "/tmp/tmpq1w2e3.gpkg" = None /\
  fst (cell5_tail (H := sample_env true) sample_frame sample_frame sample_world)
    = Raise (OtherError "CUDA").
Proof.
  split; [|reflexivity].
  apply (temp_file_unlinked_in_every_case (H := sample_env true)
           sample_frame sample_frame sample_world).
Defined.


(** * Further properties *)

(** ** The best epoch when training goes on *)

Lemma min_from_snoc (rest : list pyfloat) : forall best i x,
  min_from best i (rest ++ [x]) =
    if flt x (snd (min_from best i rest))
    then ((i + length rest)%nat, x)
    else min_from best i rest.
Proof.
  induction rest as [|a rest IH]; intros best i x; cbn [app min_from length].
  - now rewrite Nat.add_0_r.
  - rewrite IH. now rewrite <- Nat.add_succ_comm.
Qed.

Lemma index_from_app_found (l l' : list pyfloat) : forall j x k,
  index_from j l x = Ok k -> index_from j (l ++ l') x = Ok k.
Proof.
  induction l as [|a l IH]; intros j x k Hk; cbn [app index_from] in *.
  - discriminate.
  - destruct ((j =? fst x)%nat || feq a (snd x)); [exact Hk | now apply IH].
Qed.

Lemma index_from_app_missing (l l' : list pyfloat) : forall j x,
  (forall k y, l !! k = Some y ->
               ((j + k =? fst x)%nat || feq y (snd x)) = false) ->
  index_from j (l ++ l') x = index_from (j + length l) l' x.
Proof.
  induction l as [|a l IH]; intros j x Hno; cbn [app index_from length].
  - now rewrite Nat.add_0_r.
  - pose proof (Hno 0%nat a eq_refl) as H0. rewrite Nat.add_0_r in H0.
    rewrite H0. rewrite IH.
    + now rewrite Nat.add_succ_comm.
    + intros k y Hy. rewrite Nat.add_succ_comm. now apply (Hno (S k)).
Qed.

(** X1.  One more epoch whose validation loss is not below the best one
    so far leaves the best epoch where it was: a tie goes to the earlier
    epoch, and so does a loss that is NaN. *)
Theorem best_epoch_kept_without_improvement
    (l : list pyfloat) (i : nat) (m x : pyfloat) :
  best_epoch l = Ok i ->
  l !! i = Some m ->
  flt x m = false ->
  best_epoch (l ++ [x]) = Ok i.
Proof.
  intros Hi Hm Hx.
  destruct (best_epoch_inv l i Hi) as (p & v & m' & Hmin & _ & Hm' & Hmv & _ & Hidx).
  assert (m' = m) by congruence. subst m'.
  assert (Hxv : flt x v = false).
  { destruct Hmv as [<-|Heq]; [exact Hx|].
    now rewrite <- (feq_flt_r m v x Heq). }
  destruct l as [|a rest]; [discriminate|].
  cbn [py_min] in Hmin. injection Hmin as Hmin.
  unfold best_epoch, py_index. cbn [app py_min].
  rewrite min_from_snoc, Hmin. cbn [snd]. rewrite Hxv.
  exact (index_from_app_found (a :: rest) [x] 0 _ _ Hidx).
Qed.

Lemma best_epoch_kept_without_improvement_witness :
  best_epoch ([FFin 0.8; FFin 0.5; FFin 0.3; FFin 0.25; FFin 0.214] ++ [FFin 0.214])
    = Ok 4%nat.
Proof.
  apply (best_epoch_kept_without_improvement _ 4%nat (FFin 0.214)).
  - reflexivity.
  - reflexivity.
  - reflexivity.
Defined.

(** X2.  One more epoch whose validation loss is strictly below the best
    one so far becomes the best epoch. *)
Theorem best_epoch_moves_with_improvement
    (l : list pyfloat) (i : nat) (m x : pyfloat) :
  best_epoch l = Ok i ->
  l !! i = Some m ->
  flt x m = true ->
  best_epoch (l ++ [x]) = Ok (length l).
Proof.
  intros Hi Hm Hx.
  destruct (best_epoch_inv l i Hi) as (p & v & m' & Hmin & _ & Hm' & Hmv & _ & _).
  assert (m' = m) by congruence. subst m'.
  assert (Hxv : flt x v = true).
  { destruct Hmv as [<-|Heq]; [exact Hx|].
    now rewrite <- (feq_flt_r m v x Heq). }
  destruct l as [|a rest]; [discriminate|].
  assert (Ha : a <> FNan).
  { intros ->. rewrite best_epoch_leading_nan in Hi. injection Hi as <-.
    cbn in Hm. injection Hm as <-. now rewrite flt_nan_r in Hx. }
  cbn [py_min] in Hmin. injection Hmin as Hmin.
  destruct (min_from_not_below rest (0%nat, a) 1 Ha) as (_ & Hav & Hrest).
  rewrite Hmin in Hav, Hrest. cbn [snd] in Hav, Hrest.
  unfold best_epoch, py_index.
  change ((a :: rest) ++ [x]) with (a :: (rest ++ [x])) at 1.
  cbn [py_min]. rewrite min_from_snoc, Hmin. cbn [snd]. rewrite Hxv.
  rewrite index_from_app_missing.
  - cbn [index_from Nat.add length fst]. now rewrite Nat.eqb_refl.
  - intros k y Hy. cbn [Nat.add fst snd]. apply orb_false_iff. split.
    + apply Nat.eqb_neq. apply lookup_lt_Some in Hy. cbn [length] in Hy. lia.
    + destruct (feq y x) eqn:E; [|reflexivity].
      assert (Hin : In y (a :: rest)).
      { apply list_elem_of_In. eapply list_elem_of_lookup_2; eauto. }
      assert (Hyv : flt y v = false).
      { destruct Hin as [<-|Hin]; [exact Hav | now apply Hrest]. }
      rewrite (feq_flt_l y x v E), Hxv in Hyv. discriminate.
Qed.

Lemma best_epoch_moves_with_improvement_witness :
  best_epoch ([FFin 0.8; FFin 0.5; FFin 0.3; FFin 0.25; FFin 0.214] ++ [FFin 0.2])
    = Ok 5%nat.
Proof.
  change 5%nat with (length [FFin 0.8; FFin 0.5; FFin 0.3; FFin 0.25; FFin 0.214]).
  apply (best_epoch_moves_with_improvement _ 4%nat (FFin 0.214)).
  - reflexivity.
  - reflexivity.
  - reflexivity.
Defined.

(** ** The metrics cells on any dictionary *)

Ltac keys_among :=
  let k := fresh "k" in
  let Hk := fresh "Hk" in
  intros k Hk; apply list_elem_of_In in Hk; apply list_elem_of_In;
  unfold cell3_keys, cell4_keys; simpl in *; intuition (subst; auto 10).

Ltac key_error_leaf :=
  let k := fresh "k" in
  let Hk := fresh "Hk" in
  intros k Hk; cbn in Hk;
  first [ discriminate
        | injection Hk as <-;
          split; [assumption | apply list_elem_of_In; simpl; auto 10] ].

Ltac subscripts_leaf :=
  match goal with
  | |- exists ks, getitems ?t = _ ++ ks /\ _ =>
      let g := fresh "g" in
      let Hg := fresh "Hg" in
      remember (getitems t) as g eqn:Hg;
      rewrite ?getitems_app in Hg; cbn in Hg;
      rewrite ?app_nil_r, <- ?app_assoc in Hg; cbn in Hg;
      subst g;
      first [ eexists; split; [reflexivity | keys_among]
            | exists []; split; [symmetry; apply app_nil_r | keys_among] ]
  end.

Ltac cell3_leaf :=
  cbn [fst snd fs trace]; split; [key_error_leaf | subscripts_leaf].

(** X3.  With [val_losses] an empty list, and matplotlib accepting the
    figure and the two curves, the plotting cell raises [ValueError] at
    [min]: the two loss curves have been drawn by then, the marker, the
    legend and [show] have not, and [test_loss] has not been read. *)
Theorem cell3_empty_val_losses `{Pyplot}
    (metrics : gmap string pyval) (train : pyval) (w : world) :
  metrics !! "train_losses" = Some train ->
  metrics !! "val_losses" = Some (VList []) ->
  (forall w', plt_fault w' "figure" [VInt 5; VInt 3] = None) ->
  (forall w', plt_fault w' "plot" [train; VStr "train"] = None) ->
  (forall w', plt_fault w' "plot" [VList []; VStr "val"] = None) ->
  cell3_plot metrics w =
    (Raise ValueError,
     {| fs := fs w; trace := trace w ++ cell3_events_before_min train |}).
Proof.
  intros Htrain Hval Hfigure Hcurve1 Hcurve2. unfold cell3_plot. run_cell.
  rewrite Htrain, Hval.
  rewrite Hfigure. cbn [fst snd fs trace].
  rewrite Hcurve1. cbn [fst snd fs trace].
  rewrite Hcurve2. cbn [fst snd fs trace index_method min_of as_sequence py_min].
  rewrite <- !app_assoc. reflexivity.
Qed.

Lemma cell3_empty_val_losses_witness :
  fst (cell3_plot (H := strict_pyplot)
         (<["val_losses" := VList []]> sample_metrics) sample_world)
    = Raise ValueError.
Proof.
  rewrite (cell3_empty_val_losses (H := strict_pyplot) _
             (VList [FFin 0.9; FFin 0.6; FFin 0.4; FFin 0.3; FFin 0.25]));
    reflexivity.
Defined.

(** The [KeyError]s and the subscripts of the plotting cell, whatever
    the dictionary holds and whatever matplotlib does. *)
Lemma cell3_plot_key_errors_sound `{Pyplot} (metrics : gmap string pyval) (w : world) :
  (forall k, fst (cell3_plot metrics w) = Raise (KeyError k) ->
             metrics !! k = None /\ k ∈ cell3_keys) /\
  (exists ks,
      getitems (trace (snd (cell3_plot metrics w))) = getitems (trace w) ++ ks /\
      forall k, k ∈ ks -> k ∈ cell3_keys).
Proof.
  destruct (metrics !! "val_losses") as [val|] eqn:Hv.
  - destruct (as_sequence val) as [l|] eqn:Hseq;
      [destruct l as [|a rest]|].
    + unfold cell3_plot. run_cell. rewrite Hv.
      plt_step cell3_leaf.
      destruct (metrics !! "train_losses") as [train|] eqn:Ht;
        cbn [fst snd fs trace]; [|solve [cell3_leaf]].
      plt_step cell3_leaf. plt_step cell3_leaf.
      unfold index_method, min_of. rewrite Hseq. cbn [py_min].
      cell3_leaf.
    + destruct (best_epoch_total (a :: rest)) as [i Hi]; [discriminate|].
      destruct (cell3_plot_initial_part metrics val (a :: rest) i w Hv Hseq Hi)
        as (done & rest' & Hsnd & Hsplit & Hout).
      split.
      * intros k Hk. rewrite Hk in Hout. exact Hout.
      * exists (getitems done). rewrite Hsnd. cbn [trace].
        split; [apply getitems_app|].
        exact (getitems_initial_part _ _ _ _ _ _ Hsplit).
    + unfold cell3_plot. run_cell. rewrite Hv.
      plt_step cell3_leaf.
      destruct (metrics !! "train_losses") as [train|] eqn:Ht;
        cbn [fst snd fs trace]; [|solve [cell3_leaf]].
      plt_step cell3_leaf. plt_step cell3_leaf.
      unfold index_method. rewrite Hseq.
      cell3_leaf.
  - unfold cell3_plot. run_cell. rewrite Hv.
    plt_step cell3_leaf.
    destruct (metrics !! "train_losses") as [train|] eqn:Ht;
      cbn [fst snd fs trace]; [|solve [cell3_leaf]].
    plt_step cell3_leaf.
    cell3_leaf.
Qed.

(** X4.  On any dictionary and whatever matplotlib does, a [KeyError] of
    the plotting cell names one of [train_losses], [val_losses],
    [test_loss], and that key is absent; the cell subscripts no other key
    than those three.  When matplotlib accepts the figure, a missing
    [train_losses] is reported; when it also accepts the curve of
    [train_losses], a missing [val_losses] is reported. *)
Theorem cell3_key_errors `{Pyplot} (metrics : gmap string pyval) (w : world) :
  (forall k, fst (cell3_plot metrics w) = Raise (KeyError k) ->
             metrics !! k = None /\ k ∈ cell3_keys) /\
  ((forall w', plt_fault w' "figure" [VInt 5; VInt 3] = None) ->
   metrics !! "train_losses" = None ->
   fst (cell3_plot metrics w) = Raise (KeyError "train_losses")) /\
  ((forall w', plt_fault w' "figure" [VInt 5; VInt 3] = None) ->
   forall train, metrics !! "train_losses" = Some train ->
   (forall w', plt_fault w' "plot" [train; VStr "train"] = None) ->
   metrics !! "val_losses" = None ->
   fst (cell3_plot metrics w) = Raise (KeyError "val_losses")) /\
  (exists ks,
      getitems (trace (snd (cell3_plot metrics w))) = getitems (trace w) ++ ks /\
      forall k, k ∈ ks -> k ∈ cell3_keys).
Proof.
  destruct (cell3_plot_key_errors_sound metrics w) as [Hsound Hkeys].
  split; [exact Hsound|]. split; [|split; [|exact Hkeys]].
  - intros Hfigure Htrain. unfold cell3_plot. run_cell.
    rewrite Hfigure. cbn [fst snd fs trace]. rewrite Htrain. reflexivity.
  - intros Hfigure train Htrain Hcurve Hval. unfold cell3_plot. run_cell.
    rewrite Hfigure. cbn [fst snd fs trace]. rewrite Htrain.
    cbn [fst snd fs trace]. rewrite Hcurve. cbn [fst snd fs trace].
    rewrite Hval. reflexivity.
Qed.

Lemma cell3_key_errors_witness :
  fst (cell3_plot (H := strict_pyplot)
         (delete "train_losses" sample_metrics) sample_world)
    = Raise (KeyError "train_losses") /\
  fst (cell3_plot (H := strict_pyplot)
         (delete "val_losses" sample_metrics) sample_world)
    = Raise (KeyError "val_losses").
Proof.
  split.
  - apply (cell3_key_errors (H := strict_pyplot)
             (delete "train_losses" sample_metrics) sample_world);
      reflexivity.
  - destruct (cell3_key_errors (H := strict_pyplot)
                (delete "val_losses" sample_metrics) sample_world)
      as (_ & _ & Hval & _).
    apply (Hval (fun _ => eq_refl)
                (VList [FFin 0.9; FFin 0.6; FFin 0.4; FFin 0.3; FFin 0.25]));
      reflexivity.
Defined.

Ltac cell4_leaf :=
  cbn [fst snd fs trace];
  split; [key_error_leaf|];
  split; [intros; first [congruence | reflexivity]|];
  subscripts_leaf.

(** X5.  On any dictionary, a [KeyError] of the printing cell names one
    of [label_to_class], [test_accuracy], [test_confusion_matrix], and
    that key is absent; a missing [label_to_class] is reported before
    anything is printed; and the cell subscripts no other key than those
    three, so it does not need the losses. *)
Theorem cell4_key_errors (metrics : gmap string pyval) (w : world) :
  (forall k, fst (cell4_print metrics w) = Raise (KeyError k) ->
             metrics !! k = None /\ k ∈ cell4_keys) /\
  (metrics !! "label_to_class" = None ->
   cell4_print metrics w =
     (Raise (KeyError "label_to_class"), log (EGetItem "label_to_class") w)) /\
  (exists ks,
      getitems (trace (snd (cell4_print metrics w))) = getitems (trace w) ++ ks /\
      forall k, k ∈ ks -> k ∈ cell4_keys).
Proof.
  unfold cell4_print. run_cell.
  destruct (metrics !! "label_to_class") as [labels|] eqn:Hl; [|cell4_leaf].
  destruct (metrics !! "test_accuracy") as [accuracy|] eqn:Ha; [|cell4_leaf].
  destruct (percent accuracy) as [shown|e] eqn:Hp.
  - destruct (metrics !! "test_confusion_matrix") as [matrix|] eqn:Hm; cell4_leaf.
  - assert (He : forall k, e <> KeyError k)
      by (intros k ->; destruct accuracy; unfold percent in Hp; try congruence;
          destruct (Z.abs _ <? float_int_limit)%Z; congruence).
    cbn [fst snd fs trace].
    split; [intros k Hk; injection Hk as ->; exfalso; eapply He; reflexivity|].
    split; [intros; congruence|]. subscripts_leaf.
Qed.

Lemma cell4_key_errors_witness :
  fst (cell4_print (delete "label_to_class" sample_metrics) sample_world)
    = Raise (KeyError "label_to_class").
Proof.
  rewrite (proj1 (proj2 (cell4_key_errors (delete "label_to_class" sample_metrics)
                           sample_world))); reflexivity.
Defined.

(** ** The selection on any frame *)

Lemma select_unlabeled_Ok_inv (df selected : frame) :
  select_unlabeled df = Ok selected ->
  "building" ∈ columns df /\ "roof:material" ∈ columns df /\
  selected = with_rows df (List.filter unlabeled (rows df)).
Proof.
  intros Hsel.
  assert (Hb : "building" ∈ columns df).
  { unfold select_unlabeled, getcol in Hsel.
    destruct (decide ("building" ∈ columns df)); [assumption|discriminate]. }
  assert (Hm : "roof:material" ∈ columns df).
  { unfold select_unlabeled, getcol in Hsel.
    destruct (decide ("building" ∈ columns df)); [|discriminate].
    destruct (decide ("roof:material" ∈ columns df)); [assumption|discriminate]. }
  rewrite (select_unlabeled_rows df Hb Hm) in Hsel.
  injection Hsel as <-. auto.
Qed.

Lemma bool_filter_idemp {A} (p : A -> bool) (l : list A) :
  List.filter p (List.filter p l) = List.filter p l.
Proof.
  induction l as [|a l IH]; simpl; [reflexivity|].
  destruct (p a) eqn:E; simpl; [rewrite E, IH|]; auto.
Qed.

(** X6.  When the selection succeeds its rows are exactly the rows of the
    frame with a [building] value that is not null and a null
    [roof:material]: no such row is dropped and no other row is kept. *)
Theorem selection_is_exact (df selected : frame) :
  select_unlabeled df = Ok selected ->
  forall r, r ∈ rows selected <->
            r ∈ rows df /\
            is_null (attrs r !! "building") = false /\
            is_null (attrs r !! "roof:material") = true.
Proof.
  intros Hsel r.
  destruct (select_unlabeled_Ok_inv df selected Hsel) as (_ & _ & ->).
  cbn [with_rows rows]. rewrite elem_of_bool_filter. unfold unlabeled.
  rewrite andb_true_iff, negb_true_iff. reflexivity.
Qed.

Lemma selection_is_exact_witness :
  sample_row 3 (Some "yes") None 50 50
    ∈ [sample_row 0 (Some "yes") None 1 1; sample_row 3 (Some "yes") None 50 50] <->
  sample_row 3 (Some "yes") None 50 50 ∈ rows sample_frame /\
  is_null (attrs (sample_row 3 (Some "yes") None 50 50) !! "building") = false /\
  is_null (attrs (sample_row 3 (Some "yes") None 50 50) !! "roof:material") = true.
Proof.
  apply (selection_is_exact sample_frame
           (with_rows sample_frame [sample_row 0 (Some "yes") None 1 1;
                                    sample_row 3 (Some "yes") None 50 50])).
  reflexivity.
Defined.

(** X7.  Selecting again changes nothing: the selection of a selected
    frame succeeds and is that frame. *)
Theorem selection_is_idempotent (df selected : frame) :
  select_unlabeled df = Ok selected ->
  select_unlabeled selected = Ok selected.
Proof.
  intros Hsel.
  destruct (select_unlabeled_Ok_inv df selected Hsel) as (Hb & Hm & ->).
  rewrite select_unlabeled_rows by assumption.
  unfold with_rows. cbn [crs columns rows]. rewrite bool_filter_idemp. reflexivity.
Qed.

Lemma selection_is_idempotent_witness :
  select_unlabeled
    (with_rows sample_frame [sample_row 0 (Some "yes") None 1 1;
                             sample_row 3 (Some "yes") None 50 50])
  = Ok (with_rows sample_frame [sample_row 0 (Some "yes") None 1 1;
                                sample_row 3 (Some "yes") None 50 50]).
Proof. apply (selection_is_idempotent sample_frame). reflexivity. Defined.

(** X8.  The selection fails only with a [KeyError] that names a column
    the frame does not have, and it fails whenever one of the two columns
    is missing; [building] is looked up first, so it is the one reported
    when both are missing. *)
Theorem selection_key_errors (df : frame) (e : exn) :
  select_unlabeled df = Raise e <->
  (("building" ∉ columns df) /\ e = KeyError "building") \/
  (("building" ∈ columns df) /\ ("roof:material" ∉ columns df) /\
   e = KeyError "roof:material").
Proof.
  unfold select_unlabeled, getcol.
  destruct (decide ("building" ∈ columns df)) as [Hb|Hb];
    [destruct (decide ("roof:material" ∈ columns df)) as [Hm|Hm]|].
  - split; [discriminate|]. intros [[? _]|(_ & ? & _)]; contradiction.
  - split.
    + intros [= <-]. right. auto.
    + intros [[? _]|(_ & _ & ->)]; [contradiction|reflexivity].
  - split.
    + intros [= <-]. left. auto.
    + intros [[_ ->]|(? & _)]; [reflexivity|contradiction].
Qed.

Lemma selection_key_errors_witness :
  select_unlabeled frame_without_building = Raise (KeyError "building").
Proof.
  apply (selection_key_errors frame_without_building). left.
  split; [|reflexivity].
  intros Hin. apply list_elem_of_In in Hin. simpl in Hin.
  destruct Hin as [Hin|[]]. discriminate.
Defined.

(** ** The last cell when a step fails *)

Ltac run_head :=
  unfold cell5, load_annotations, gpd_read_file, rasterio_open, bind, lift;
  cbn [fs trace].

(** X9.  A failure before the count is printed leaves the world as it
    was: nothing is printed, no temporary file is created and no
    collaborator is called.  That is so when the annotations cannot be
    read, when they have no CRS ([ValueError]), when the [building] or the
    [roof:material] column is missing ([KeyError], [building] first), and
    when the imagery cannot be opened. *)
Theorem cell5_early_failures `{Externals} (w : world) :
  (forall e, read_file_behaviour annotations_f (fs w) = Raise e ->
             cell5 w = (Raise e, w)) /\
  (forall raw, read_file_behaviour annotations_f (fs w) = Ok raw ->
     (crs raw = None -> cell5 w = (Raise ValueError, w)) /\
     (is_Some (crs raw) -> "building" ∉ columns raw ->
      cell5 w = (Raise (KeyError "building"), w)) /\
     (is_Some (crs raw) -> "building" ∈ columns raw ->
      "roof:material" ∉ columns raw ->
      cell5 w = (Raise (KeyError "roof:material"), w)) /\
     (forall e, is_Some (crs raw) -> "building" ∈ columns raw ->
      "roof:material" ∈ columns raw ->
      open_behaviour imagery_f (fs w) = Raise e ->
      cell5 w = (Raise e, w))).
Proof.
  split.
  - intros e Hread. run_head. rewrite Hread. reflexivity.
  - intros raw Hread. split; [|split; [|split]].
    + intros Hcrs. run_head. rewrite Hread. unfold to_crs. rewrite Hcrs.
      reflexivity.
    + intros [c Hcrs] Hb. run_head. rewrite Hread. unfold to_crs. rewrite Hcrs.
      unfold select_unlabeled, getcol. cbn [columns].
      rewrite decide_False by assumption. reflexivity.
    + intros [c Hcrs] Hb Hm. run_head. rewrite Hread. unfold to_crs. rewrite Hcrs.
      unfold select_unlabeled, getcol. cbn [columns].
      rewrite decide_True by assumption.
      rewrite decide_False by assumption. reflexivity.
    + intros e [c Hcrs] Hb Hm Hopen. run_head. rewrite Hread.
      unfold to_crs. rewrite Hcrs.
      rewrite select_unlabeled_rows by assumption.
      rewrite Hopen. reflexivity.
Qed.

Lemma cell5_early_failures_witness :
  cell5 (H := faulty_env false false false) world_without_building
    = (Raise (KeyError "building"), world_without_building) /\
  cell5 (H := faulty_env false false false) sample_world
    = (Raise (FileNotFoundError imagery_f), sample_world).
Proof.
  split.
  - destruct (cell5_early_failures (H := faulty_env false false false)
                world_without_building) as [_ Hraw].
    destruct (Hraw frame_without_building eq_refl) as (_ & Hb & _).
    apply Hb.
    + eexists. reflexivity.
    + intros Hin. apply list_elem_of_In in Hin. simpl in Hin.
      destruct Hin as [Hin|[]]. discriminate.
  - destruct (cell5_early_failures (H := faulty_env false false false)
                sample_world) as [_ Hraw].
    destruct (Hraw sample_frame eq_refl) as (_ & _ & _ & Hopen).
    apply Hopen.
    + eexists. reflexivity.
    + apply list_elem_of_In. simpl. auto.
    + apply list_elem_of_In. simpl. auto.
    + reflexivity.
Defined.

Section FailingSteps.
Context `{Externals}.
Variables (annotations filtered_annotations : frame) (w : world).

Let temp := tempfile_name ".gpkg" (fs w).
Let created := <[temp := FEmpty]> (fs w).
Let saved := <[temp := FVector "GeoJSON" annotations]> created.

(** X10.  When the save raises, [mkdir] and the inference function are
    not called; the temporary file is removed, whatever the save left of
    it, and the exception of the save is the outcome of the cell unless the
    save left no file at all under that name, in which case [unlink]
    raises [FileNotFoundError] instead. *)
Theorem failed_save_skips_inference (e : exn) (left_behind : gmap string file) :
  to_file_fault annotations temp "GeoJSON" created = Some (e, left_behind) ->
  cell5_tail annotations filtered_annotations w =
    (match left_behind !! temp with
     | Some _ => Raise e
     | None => Raise (FileNotFoundError temp)
     end,
     {| fs := delete temp left_behind;
        trace := trace w ++ [count_line filtered_annotations;
                             EToFile annotations temp "GeoJSON";
                             EUnlink temp] |}).
Proof.
  intros Hsave. run_tail. fold temp. fold created. rewrite Hsave.
  cbn [fs trace].
  destruct (left_behind !! temp) as [x|] eqn:Hl.
  - close_run.
  - rewrite (delete_id _ _ Hl). close_run.
Qed.

(** X11.  When the save succeeds and [mkdir] raises, the inference
    function is not called, the exception of [mkdir] is the outcome of the
    cell, and the temporary file is removed; if its name was not in use
    before, the files are those the cell started with. *)
Theorem failed_mkdir_skips_inference (e : exn) :
  to_file_fault annotations temp "GeoJSON" created = None ->
  mkdir_fault (path_parent out_f) saved = Some e ->
  cell5_tail annotations filtered_annotations w =
    (Raise e,
     {| fs := delete temp (fs w);
        trace := trace w ++ [count_line filtered_annotations;
                             EToFile annotations temp "GeoJSON";
                             EMkdir (path_parent out_f);
                             EUnlink temp] |}) /\
  (fs w !! temp = None ->
   fs (snd (cell5_tail annotations filtered_annotations w)) = fs w).
Proof.
  intros Hsave Hmk.
  assert (Hrun : cell5_tail annotations filtered_annotations w =
    (Raise e,
     {| fs := delete temp (fs w);
        trace := trace w ++ [count_line filtered_annotations;
                             EToFile annotations temp "GeoJSON";
                             EMkdir (path_parent out_f);
                             EUnlink temp] |})).
  { run_tail. fold temp. fold created. rewrite Hsave. cbn [fs trace].
    fold saved. rewrite Hmk. cbn [fs trace].
    unfold saved at 1. rewrite lookup_insert_eq.
    unfold saved, created. rewrite !delete_insert_eq. close_run. }
  split; [exact Hrun|].
  intros Hfresh. rewrite Hrun. cbn [snd fs]. apply delete_id. exact Hfresh.
Qed.

(** X12.  When the save and [mkdir] succeed and the temporary file is
    still there after the inference call, the outcome of the cell is the
    outcome of that call, an exception included, and the files are those
    the call left, the temporary file removed. *)
Theorem inference_outcome_is_cell_outcome
    (r : result unit) (after : gmap string file) :
  to_file_fault annotations temp "GeoJSON" created = None ->
  mkdir_fault (path_parent out_f) saved = None ->
  inference_behaviour checkpoint_f imagery_f temp out_f args saved = (r, after) ->
  is_Some (after !! temp) ->
  cell5_tail annotations filtered_annotations w =
    (r,
     {| fs := delete temp after;
        trace := trace w ++ [count_line filtered_annotations;
                             EToFile annotations temp "GeoJSON";
                             EMkdir (path_parent out_f);
                             inference_event annotations temp;
                             EUnlink temp] |}).
Proof.
  intros Hsave Hmk Hinf [x Hx].
  run_tail. fold temp. fold created. rewrite Hsave. cbn [fs trace].
  fold saved. rewrite Hmk. cbn [fs trace]. rewrite Hinf. cbn [fs trace].
  rewrite Hx. unfold saved at 1. rewrite lookup_insert_eq. close_run.
Qed.

(** X13.  When the inference call leaves no file under the name of the
    temporary file, [unlink] raises [FileNotFoundError] and that is the
    outcome of the cell, also when the call itself returned or raised
    something else; the files are those the call left. *)
Theorem missing_temp_file_masks_outcome
    (r : result unit) (after : gmap string file) :
  to_file_fault annotations temp "GeoJSON" created = None ->
  mkdir_fault (path_parent out_f) saved = None ->
  inference_behaviour checkpoint_f imagery_f temp out_f args saved = (r, after) ->
  after !! temp = None ->
  cell5_tail annotations filtered_annotations w =
    (Raise (FileNotFoundError temp),
     {| fs := after;
        trace := trace w ++ [count_line filtered_annotations;
                             EToFile annotations temp "GeoJSON";
                             EMkdir (path_parent out_f);
                             inference_event annotations temp;
                             EUnlink temp] |}).
Proof.
  intros Hsave Hmk Hinf Hx.
  run_tail. fold temp. fold created. rewrite Hsave. cbn [fs trace].
  fold saved. rewrite Hmk. cbn [fs trace]. rewrite Hinf. cbn [fs trace].
  rewrite Hx. unfold saved at 1. rewrite lookup_insert_eq. close_run.
Qed.
End FailingSteps.

Lemma failed_save_skips_inference_witness :
  cell5_tail (H := faulty_env true false false) sample_frame sample_frame sample_world
  = (Raise (OtherError "disk full"),
     {| fs := fs sample_world;
        trace := [count_line sample_frame;
                  EToFile sample_frame "/tmp/tmpq1w2e3.gpkg" "GeoJSON";
                  EUnlink "/tmp/tmpq1w2e3.gpkg"] |}).
Proof.
  rewrite (failed_save_skips_inference (H := faulty_env true false false)
             sample_frame sample_frame sample_world (OtherError "disk full")
             (<["/tmp/tmpq1w2e3.gpkg" := FBlob "partial"]>
                (<["/tmp/tmpq1w2e3.gpkg" := FEmpty]> (fs sample_world))))
    by reflexivity.
  vm_compute. reflexivity.
Defined.

Lemma failed_mkdir_skips_inference_witness :
  fst (cell5_tail (H := faulty_env false true false)
         sample_frame sample_frame sample_world)
    = Raise (OtherError "permission denied") /\
  fs (snd (cell5_tail (H := faulty_env false true false)
             sample_frame sample_frame sample_world)) = fs sample_world.
Proof.
  destruct (failed_mkdir_skips_inference (H := faulty_env false true false)
              sample_frame sample_frame sample_world
              (OtherError "permission denied")) as [Hrun Hfs].
  - reflexivity.
  - reflexivity.
  - split; [rewrite Hrun; reflexivity | apply Hfs; reflexivity].
Defined.

Lemma inference_outcome_is_cell_outcome_witness :
  fst (cell5_tail (H := sample_env true) sample_frame sample_frame sample_world)
    = Raise (OtherError "CUDA").
Proof.
  erewrite (inference_outcome_is_cell_outcome (H := sample_env true)
              sample_frame sample_frame sample_world (Raise (OtherError "CUDA"))).
  - reflexivity.
  - reflexivity.
  - reflexivity.
  - reflexivity.
  - eexists. reflexivity.
Defined.

Lemma missing_temp_file_masks_outcome_witness :
  fst (cell5_tail (H := faulty_env false false true)
         sample_frame sample_frame sample_world)
    = Raise (FileNotFoundError "/tmp/tmpq1w2e3.gpkg").
Proof.
  erewrite (missing_temp_file_masks_outcome (H := faulty_env false false true)
              sample_frame sample_frame sample_world (Ok tt)).
  - reflexivity.
  - reflexivity.
  - reflexivity.
  - reflexivity.
  - reflexivity.
Defined.
